(** * rendercv AI layer: provider clients, client factory, resume service,
      text extractor and resume file I/O.

    A shallow embedding of [rendercv/ai/client.py], [rendercv/ai/parser.py],
    [rendercv/ai/service.py] and of the carry-over blocks of
    [rendercv/cli/ai_command/ai_command.py], with the properties of the
    specification stated and proved over it. *)

From Stdlib Require Import ZArith NArith List String Ascii.
From stdpp Require Import gmap list strings.

#[local] Set Warnings "-register-all".

Local Open Scope N_scope.

(** ** Python strings

    A Python [str] is a sequence of Unicode code points; it is modelled as
    the list of its code points.  String constants of the source are ASCII
    and written with [lit]. *)

Abbreviation pystr := (list N).

Definition lit (s : string) : pystr :=
  map N_of_ascii (list_ascii_of_string s).

(** [str.isspace] on one code point, which is also the set that
    [str.strip()] removes: the code points CPython classifies as white
    space. *)
Definition py_isspace (c : N) : bool :=
  ((9 <=? c) && (c <=? 13)) || ((28 <=? c) && (c <=? 32))
  || (c =? 133) || (c =? 160) || (c =? 5760)
  || ((8192 <=? c) && (c <=? 8202))
  || (c =? 8232) || (c =? 8233) || (c =? 8239) || (c =? 8287) || (c =? 12288).

Fixpoint py_lstrip (s : pystr) : pystr :=
  match s with
  | [] => []
  | c :: s' => if py_isspace c then py_lstrip s' else s
  end.

Definition py_rstrip (s : pystr) : pystr := rev (py_lstrip (rev s)).

(** [s.strip()] *)
Definition py_strip (s : pystr) : pystr := py_rstrip (py_lstrip s).

(** [s.startswith(p)] *)
Fixpoint py_startswith (s p : pystr) {struct p} : bool :=
  match p, s with
  | [], _ => true
  | _ :: _, [] => false
  | a :: p', c :: s' => (a =? c) && py_startswith s' p'
  end.

(** [s.endswith(p)] *)
Definition py_endswith (s p : pystr) : bool := py_startswith (rev s) (rev p).

(** [s[n:]] for a non-negative constant [n]. *)
Definition slice_from (n : nat) (s : pystr) : pystr := drop n s.

(** [s[:-n]] for a positive constant [n]: everything but the last [n]
    code points, the empty string when [s] is shorter than [n]. *)
Definition slice_to_minus (n : nat) (s : pystr) : pystr :=
  take (length s - n) s.

(** The truth value of a string: non-empty. *)
Definition truthy (s : pystr) : bool :=
  match s with [] => false | _ :: _ => true end.

(** Truth value of an optional string ([None] and [""] are both false). *)
Definition truthy_opt (o : option pystr) : bool :=
  match o with Some s => truthy s | None => false end.

(** [sep.join(parts)] *)
Fixpoint py_join (sep : pystr) (parts : list pystr) : pystr :=
  match parts with
  | [] => []
  | [p] => p
  | p :: ps => p ++ sep ++ py_join sep ps
  end.

(** [needle in hay] on two strings: substring test. *)
Fixpoint py_substring (needle hay : pystr) : bool :=
  py_startswith hay needle ||
  match hay with
  | [] => false
  | _ :: hay' => py_substring needle hay'
  end.

(** A string is blank when every code point is white space (the empty
    string included). *)
Definition blank (s : pystr) : Prop := Forall (fun c => py_isspace c = true) s.


(** ** Python values

    The values that [json.loads] and the YAML loader produce.  A [dict]
    is a finite map; its keys are strings, as in every JSON object, and
    its equality is the equality of Python dictionaries (insertion order
    does not matter).  A [float] is kept as its binary64 bit pattern. *)

Inductive pyval :=
| PNone
| PBool (b : bool)
| PInt (z : Z)
| PFloat (bits : N)
| PStr (s : pystr)
| PList (l : list pyval)
| PDict (d : gmap pystr pyval).

(** [x > 0] on a float given by its bits: positive sign, not zero, not a
    NaN. *)
Definition float_gt_zero (bits : N) : bool :=
  (0 <? bits) && (bits <=? 0x7FF0000000000000).

(** The temperatures used by the source, as binary64 constants. *)
Definition float_0_2 : N := 0x3FC999999999999A.
Definition float_0_3 : N := 0x3FD3333333333333.
Definition float_0_4 : N := 0x3FD999999999999A.
Definition float_0_5 : N := 0x3FE0000000000000.
Definition float_0_6 : N := 0x3FE3333333333333.
Definition float_0_7 : N := 0x3FE6666666666666.

(** ** Exceptions and results *)

Inductive exn_class :=
| RenderCVUserError
| TypeError
| IndexError
| AttributeError
| KeyError
| OSError
| UnicodeDecodeError
| JSONDecodeError
| LibraryError.

(** An exception: its class and [str(e)]. *)
Inductive exn := Exn (cls : exn_class) (msg : pystr).

Definition exn_cls (e : exn) : exn_class := let 'Exn c _ := e in c.
Definition exn_str (e : exn) : pystr := let 'Exn _ m := e in m.

Definition is_user_error (e : exn) : bool :=
  match exn_cls e with RenderCVUserError => true | _ => false end.

Inductive result (A : Type) :=
| Ok (a : A)
| Raise (e : exn).
Arguments Ok {A} a.
Arguments Raise {A} e.

(** Equality of a value with a string ([v == "..."]). *)
Definition eq_str (v : pyval) (s : pystr) : bool :=
  match v with PStr t => bool_decide (t = s) | _ => false end.

(** [key in v] for a string [key]: key membership for a dict, substring
    test for a string, element test for a list, and a [TypeError] for the
    values that are not containers. *)
Definition py_in (key : pystr) (v : pyval) : result bool :=
  match v with
  | PDict d => Ok (bool_decide (is_Some (d !! key)))
  | PStr s => Ok (py_substring key s)
  | PList l => Ok (existsb (fun x => eq_str x key) l)
  | PNone => Raise (Exn TypeError (lit "argument of type 'NoneType' is not iterable"))
  | PBool _ => Raise (Exn TypeError (lit "argument of type 'bool' is not iterable"))
  | PInt _ => Raise (Exn TypeError (lit "argument of type 'int' is not iterable"))
  | PFloat _ => Raise (Exn TypeError (lit "argument of type 'float' is not iterable"))
  end.

(** [v[key]] for a string [key] known to be [in v] when [v] is a dict. *)
Definition py_getitem (v : pyval) (key : pystr) : result pyval :=
  match v with
  | PDict d =>
      match d !! key with
      | Some x => Ok x
      | None => Raise (Exn KeyError key)
      end
  | PStr _ => Raise (Exn TypeError (lit "string indices must be integers"))
  | PList _ => Raise (Exn TypeError (lit "list indices must be integers or slices, not str"))
  | _ => Raise (Exn TypeError (lit "object is not subscriptable"))
  end.

(** [v[key] = x] for a string [key]: only a dict accepts it. *)
Definition py_setitem (v : pyval) (key : pystr) (x : pyval) : result pyval :=
  match v with
  | PDict d => Ok (PDict (<[key := x]> d))
  | _ => Raise (Exn TypeError (lit "object does not support item assignment"))
  end.

(** ** The outside world

    Provider back ends, the JSON and YAML libraries, the document readers
    and the Unicode tables of the runtime are not part of the repository:
    they are taken as an interface. *)

(** A [pathlib.Path] as its normalised components. *)
Record Path := { anchor : pystr; parts : list pystr }.

Record message := { role : pystr; content : pystr }.

(** Keyword arguments of [client.chat.completions.create]. *)
Record chat_request := {
  chat_model : pystr;
  chat_messages : list message;
  chat_temperature : N;
  chat_max_tokens : Z;
  chat_json_object : bool;
}.

(** Keyword arguments of [client.messages.create]; [system] and
    [temperature] are optional keys. *)
Record messages_request := {
  msg_model : pystr;
  msg_max_tokens : Z;
  msg_messages : list message;
  msg_system : option pystr;
  msg_temperature : option N;
}.

(** A content block of a messages-style reply: a text block has [.text],
    any other block has not. *)
Inductive block :=
| TextBlock (text : pystr)
| OtherBlock.

Inductive call :=
| OpenAICall (r : chat_request)
| AnthropicCall (r : messages_request).

Record docx_document := {
  paragraphs : list pystr;
  tables : list (list (list pystr));
}.

Record libs := {
  (** [response.choices] of a chat completion, each choice given by its
      [message.content] ([None] when there is none). *)
  openai_create : chat_request -> result (list (option pystr));
  (** [response.content] of a messages reply. *)
  anthropic_create : messages_request -> result (list block);
  openai_installed : bool;
  anthropic_installed : bool;
  json_loads : pystr -> result pyval;
  (** [json.dumps(v, indent=2)] *)
  json_dumps : pyval -> pystr;
  (** [yaml.dump(v, f)] on a stream opened with UTF-8: the bytes written. *)
  yaml_dump : pyval -> list N;
  (** [yaml.load(f)] on a stream opened with UTF-8. *)
  yaml_load : list N -> result pyval;
  (** Reading a text file as UTF-8 / as Latin-1. *)
  read_utf8 : list N -> result pystr;
  read_latin1 : list N -> result pystr;
  (** [pypdf]: the text of each page; [None] when not installed. *)
  pypdf_pages : option (list N -> result (list pystr));
  (** [docx]: the document; [None] when not installed. *)
  docx_Document : option (list N -> result docx_document);
  (** [str.lower] and [str.upper] outside ASCII. *)
  unicode_lower : pystr -> pystr;
  unicode_upper : pystr -> pystr;
  (** [pathlib.Path(s)]: the components of a path given as a string. *)
  pathlib_Path : pystr -> Path;
  (** [os.stat] on a path the file system does not hold: the message of
      the [OSError] that [Path.exists] lets through (a name that is too
      long, a directory that may not be searched), [None] when the error
      is one to which [Path.exists] answers [False] (no such file, not a
      directory, too many links). *)
  stat_error : pystr -> option pystr;
}.

Inductive fsnode :=
| FFile (bytes : list N)
| FDir.

(** The state the code reads and writes: the process environment, the
    file system (keyed by [str(path)]), the dictionaries the callers hold
    by reference, and the log of the calls made to a provider back end. *)
Record world := {
  environ : gmap pystr pystr;
  fs : gmap pystr fsnode;
  heap : gmap positive pyval;
  calls : list call;
}.

Definition set_fs (f : gmap pystr fsnode) (w : world) : world :=
  {| environ := environ w; fs := f; heap := heap w; calls := calls w |}.
Definition set_heap (h : gmap positive pyval) (w : world) : world :=
  {| environ := environ w; fs := fs w; heap := h; calls := calls w |}.
Definition log_call (c : call) (w : world) : world :=
  {| environ := environ w; fs := fs w; heap := heap w; calls := calls w ++ [c] |}.

(** State and exception monad: a raised exception keeps the state reached. *)
Definition M (A : Type) : Type := world -> result A * world.

Definition ret {A} (a : A) : M A := fun w => (Ok a, w).
Definition raise {A} (e : exn) : M A := fun w => (Raise e, w).
Definition bind {A B} (m : M A) (k : A -> M B) : M B :=
  fun w => match m w with
           | (Ok a, w') => k a w'
           | (Raise e, w') => (Raise e, w')
           end.
Definition lift {A} (r : result A) : M A := fun w => (r, w).
Definition gets {A} (f : world -> A) : M A := fun w => (Ok (f w), w).
Definition modify (f : world -> world) : M unit := fun w => (Ok tt, f w).

(** [try: m except Exception as e: h e] *)
Definition try_except {A} (m : M A) (h : exn -> M A) : M A :=
  fun w => match m w with
           | (Ok a, w') => (Ok a, w')
           | (Raise e, w') => h e w'
           end.

Notation "'let*' x := m 'in' k" := (bind m (fun x => k))
  (at level 10, x name, m at level 100, k at level 200, only parsing).
Notation "m >> k" := (bind m (fun _ => k))
  (at level 100, k at level 200, right associativity, only parsing).

Definition user_error {A} (msg : pystr) : M A := raise (Exn RenderCVUserError msg).

(** ** Paths *)

(** [str(path)] *)
Definition path_str (p : Path) : pystr :=
  match anchor p, parts p with
  | [], [] => lit "."
  | a, ps => a ++ py_join (lit "/") ps
  end.

(** [path.name] *)
Definition path_name (p : Path) : pystr := List.last (parts p) [].

(** Splits a name at its last dot: what is before it and what is after. *)
Fixpoint split_last_dot (s : pystr) : option (pystr * pystr) :=
  match s with
  | [] => None
  | c :: s' =>
      match split_last_dot s' with
      | Some (b, a) => Some (c :: b, a)
      | None => if c =? 46 then Some ([], s') else None
      end
  end.

(** [path.suffix]: from the last dot of the name, when that dot is neither
    its first nor its last character. *)
Definition path_suffix (p : Path) : pystr :=
  match split_last_dot (path_name p) with
  | Some (b, a) => if truthy b && truthy a then 46 :: a else []
  | None => []
  end.

(** [path.stem] *)
Definition path_stem (p : Path) : pystr :=
  match split_last_dot (path_name p) with
  | Some (b, a) => if truthy b && truthy a then b else path_name p
  | None => path_name p
  end.

(** The bytes of the file at [p]; opening a directory or a missing file
    fails with [OSError]. *)
Definition read_bytes (p : Path) : M (list N) :=
  let* f := gets (fun w => fs w !! path_str p) in
  match f with
  | Some (FFile b) => ret b
  | Some FDir => raise (Exn OSError (lit "[Errno 21] Is a directory: " ++ path_str p))
  | None => raise (Exn OSError (lit "[Errno 2] No such file or directory: " ++ path_str p))
  end.

(** [path.open("w")] followed by writing [b]: the file is created or
    replaced; a directory cannot be opened for writing.  The directory
    the file goes to is taken to exist. *)
Definition write_bytes (p : Path) (b : list N) : M unit :=
  let* f := gets (fun w => fs w !! path_str p) in
  match f with
  | Some FDir => raise (Exn OSError (lit "[Errno 21] Is a directory: " ++ path_str p))
  | _ => modify (fun w => set_fs (<[path_str p := FFile b]> (fs w)) w)
  end.

(** ASCII case mapping; the runtime's tables are used as soon as a code
    point is not ASCII. *)
Definition is_ascii (c : N) : bool := c <? 128.
Definition ascii_lower (c : N) : N := if (65 <=? c) && (c <=? 90) then c + 32 else c.
Definition ascii_upper (c : N) : N := if (97 <=? c) && (c <=? 122) then c - 32 else c.

(** ** JSON texts

    After white space a JSON text starts with the first character of a
    value (an object, an array, a string, a number or a literal name, with
    the names [NaN] and [Infinity] that [json.loads] also reads) and it
    ends with the last character of one. *)
Definition json_first (c : N) : bool :=
  (c =? 34) || existsb (N.eqb c) (lit "{[-0123456789tfnNI").
Definition json_last (c : N) : bool :=
  (c =? 34) || existsb (N.eqb c) (lit "}]0123456789elNy").

Definition json_text (s : pystr) : bool :=
  match py_strip s with
  | [] => false
  | c :: r => json_first c && json_last (List.last r c)
  end.

(** ** Sample back ends and worlds

    Concrete libraries and states on which the program is run in the
    examples: a back end that always gives the same reply, a [json.loads]
    known on a few texts, a YAML library that reads back one given
    document, text files in ASCII. *)
Module Sample.

Definition quoted (s : pystr) : pystr := 34 :: s ++ [34].

Definition cv_text : pystr :=
  lit "{" ++ quoted (lit "cv") ++ lit ": {}}".
Definition resume_null_text : pystr :=
  lit "{" ++ quoted (lit "resume") ++ lit ": null}".
Definition resume_string_text : pystr :=
  lit "{" ++ quoted (lit "resume") ++ lit ": " ++ quoted (lit "see my cv") ++ lit "}".

Definition json (s : pystr) : result pyval :=
  if bool_decide (s = lit "{}") then Ok (PDict ∅)
  else if bool_decide (s = cv_text) then Ok (PDict {[ lit "cv" := PDict ∅ ]})
  else if bool_decide (s = resume_null_text) then Ok (PDict {[ lit "resume" := PNone ]})
  else if bool_decide (s = resume_string_text)
  then Ok (PDict {[ lit "resume" := PStr (lit "see my cv") ]})
  else Raise (Exn JSONDecodeError (lit "Expecting value")).

Definition make_libs (chat : list (option pystr)) (blocks : list block)
    (yaml_doc : pyval) : libs :=
  {| openai_create := fun _ => Ok chat;
     anthropic_create := fun _ => Ok blocks;
     openai_installed := true;
     anthropic_installed := true;
     json_loads := json;
     json_dumps := fun _ => lit "{}";
     yaml_dump := fun _ => lit "cv: {}";
     yaml_load := fun _ => Ok yaml_doc;
     read_utf8 := fun b => Ok b;
     read_latin1 := fun b => Ok b;
     pypdf_pages := None;
     docx_Document := None;
     unicode_lower := fun s => s;
     unicode_upper := fun s => s;
     pathlib_Path := fun s => {| anchor := []; parts := [s] |};
     stat_error := fun _ => None |}.

Definition file (name : pystr) : Path := {| anchor := []; parts := [name] |}.

Definition world_of (env : gmap pystr pystr) (files : gmap pystr fsnode)
    (objects : gmap positive pyval) : world :=
  {| environ := env; fs := files; heap := objects; calls := [] |}.

Definition empty_world : world := world_of ∅ ∅ ∅.

(** Both keys are in the environment. *)
Definition both_keys : world :=
  world_of (<[lit "OPENAI_API_KEY" := lit "sk-openai"]>
             (<[lit "ANTHROPIC_API_KEY" := lit "sk-anthropic"]> ∅)) ∅ ∅.

(** Only the Anthropic key is, the OpenAI one is set but empty. *)
Definition anthropic_key : world :=
  world_of (<[lit "OPENAI_API_KEY" := []]>
             (<[lit "ANTHROPIC_API_KEY" := lit "sk-anthropic"]> ∅)) ∅ ∅.


(** A document with the three metadata blocks. *)
Definition old_doc : gmap pystr pyval :=
  <[lit "cv" := PDict {[ lit "name" := PStr (lit "Ada") ]}]>
    (<[lit "design" := PDict {[ lit "theme" := PStr (lit "sb2nov") ]}]>
       (<[lit "locale" := PDict {[ lit "language" := PStr (lit "french") ]}]>
          (<[lit "settings" := PDict {[ lit "bold" := PBool true ]}]> ∅))).

End Sample.

(** Further sample libraries: the text readers, the PDF reader and the
    YAML loader can be chosen. *)
Module Cases.

Definition make_libs (chat : list (option pystr))
    (utf8 latin1 : list N -> result pystr)
    (pdf : option (list N -> result (list pystr)))
    (yaml_doc : pyval) : libs :=
  {| openai_create := fun _ => Ok chat;
     anthropic_create := fun _ => Ok [];
     openai_installed := true;
     anthropic_installed := true;
     json_loads := Sample.json;
     json_dumps := fun _ => lit "{}";
     yaml_dump := fun _ => lit "cv: {}";
     yaml_load := fun _ => Ok yaml_doc;
     read_utf8 := utf8;
     read_latin1 := latin1;
     pypdf_pages := pdf;
     docx_Document := None;
     unicode_lower := fun s => s;
     unicode_upper := fun s => s;
     pathlib_Path := fun s => {| anchor := []; parts := [s] |};
     stat_error := fun _ => None |}.

(** A reader that finds every file undecodable. *)
Definition undecodable (b : list N) : result pystr :=
  Raise (Exn UnicodeDecodeError (lit "invalid start byte")).

(** A PDF reader that finds two pages, without text. *)
Definition scanned (b : list N) : result (list pystr) := Ok [[]; [32]].







(** An operating system on which [os.stat] of a name of more than 255
    characters fails with [ENAMETOOLONG]. *)
Definition name_too_long (s : pystr) : option pystr :=
  if (255 <? N.of_nat (length s))%N
  then Some (lit "[Errno 36] File name too long") else None.

Definition with_stat_error (f : pystr -> option pystr) (L : libs) : libs :=
  {| openai_create := openai_create L;
     anthropic_create := anthropic_create L;
     openai_installed := openai_installed L;
     anthropic_installed := anthropic_installed L;
     json_loads := json_loads L;
     json_dumps := json_dumps L;
     yaml_dump := yaml_dump L;
     yaml_load := yaml_load L;
     read_utf8 := read_utf8 L;
     read_latin1 := read_latin1 L;
     pypdf_pages := pypdf_pages L;
     docx_Document := docx_Document L;
     unicode_lower := unicode_lower L;
     unicode_upper := unicode_upper L;
     pathlib_Path := pathlib_Path L;
     stat_error := f |}.

End Cases.

(** ** The program *)

Section Program.

(** The libraries and back ends the code runs against. *)
Variable L : libs.

(** The four system prompts of [prompts.py], fixed string constants. *)
Variable PARSE_RESUME_PROMPT : pystr.
Variable POLISH_RESUME_PROMPT : pystr.
Variable TAILOR_RESUME_PROMPT : pystr.
Variable GENERATE_RESUME_PROMPT : pystr.

(** [path.exists()]: [True] for a path the file system holds.  On any
    other path [os.stat] fails, and [exists] answers [False] to the errors
    it ignores and raises the others. *)
Definition path_exists (p : Path) : M bool :=
  let* node := gets (fun w => fs w !! path_str p) in
  match node with
  | Some _ => ret true
  | None =>
      match stat_error L (path_str p) with
      | Some msg => raise (Exn OSError msg)
      | None => ret false
      end
  end.

(** [path.is_file()], asked of a path that exists. *)
Definition path_is_file (p : Path) : M bool :=
  gets (fun w => match fs w !! path_str p with
                 | Some (FFile _) => true
                 | _ => false
                 end).

(** [s.lower()] and [s.upper()] *)
Definition py_lower (s : pystr) : pystr :=
  if forallb is_ascii s then map ascii_lower s else unicode_lower L s.
Definition py_upper (s : pystr) : pystr :=
  if forallb is_ascii s then map ascii_upper s else unicode_upper L s.

(** *** client.py *)

Record AIConfig := {
  provider : pystr;
  api_key : pystr;
  model : option pystr;
}.

(** [AIConfig.get_model] *)
Definition get_model (self : AIConfig) : M pystr :=
  if truthy_opt (model self) then ret (default [] (model self))
  else if bool_decide (provider self = lit "openai") then ret (lit "gpt-4o")
  else if bool_decide (provider self = lit "anthropic") then ret (lit "claude-sonnet-4-20250514")
  else user_error (lit "Unknown AI provider: " ++ provider self).

(** The two implementations of the abstract [AIClient]. *)
Inductive AIClient :=
| OpenAIClient (config : AIConfig)
| AnthropicClient (config : AIConfig).

(** [OpenAIClient.__init__] *)
Definition OpenAIClient_init (config : AIConfig) : M AIClient :=
  if openai_installed L then ret (OpenAIClient config)
  else user_error (lit "OpenAI package is not installed. Install it with: pip install openai").

(** [AnthropicClient.__init__] *)
Definition AnthropicClient_init (config : AIConfig) : M AIClient :=
  if anthropic_installed L then ret (AnthropicClient config)
  else user_error (lit "Anthropic package is not installed. Install it with: pip install anthropic").

(** [self.client.chat.completions.create(...)]: one call to the back end,
    recorded in the log. *)
Definition chat_completions_create (r : chat_request) : M (list (option pystr)) :=
  modify (log_call (OpenAICall r)) >> lift (openai_create L r).

(** [self.client.messages.create] applied to the keyword arguments. *)
Definition messages_create (r : messages_request) : M (list block) :=
  modify (log_call (AnthropicCall r)) >> lift (anthropic_create L r).

(** The message list of the chat-completion client. *)
Definition openai_messages (prompt : pystr) (system_prompt : option pystr) : list message :=
  (if truthy_opt system_prompt
   then [ {| role := lit "system"; content := default [] system_prompt |} ]
   else [])
  ++ [ {| role := lit "user"; content := prompt |} ].

(** [response.choices[0].message.content] *)
Definition first_choice_content (choices : list (option pystr)) : M (option pystr) :=
  match choices with
  | c :: _ => ret c
  | [] => raise (Exn IndexError (lit "list index out of range"))
  end.

(** [response.content[0].text] *)
Definition first_block_text (blocks : list block) : M pystr :=
  match blocks with
  | TextBlock t :: _ => ret t
  | OtherBlock :: _ => raise (Exn AttributeError (lit "object has no attribute 'text'"))
  | [] => raise (Exn IndexError (lit "list index out of range"))
  end.

(** [x or d] for an optional string. *)
Definition or_else (x : option pystr) (d : pystr) : pystr :=
  if truthy_opt x then default [] x else d.

(** [OpenAIClient.generate] *)
Definition OpenAIClient_generate (config : AIConfig) (prompt : pystr)
    (system_prompt : option pystr) (temperature : N) (max_tokens : Z) : M pystr :=
  let messages := openai_messages prompt system_prompt in
  let* m := get_model config in
  let* response := chat_completions_create
    {| chat_model := m; chat_messages := messages;
       chat_temperature := temperature; chat_max_tokens := max_tokens;
       chat_json_object := false |} in
  let* c := first_choice_content response in
  ret (or_else c []).

(** [OpenAIClient.generate_json] *)
Definition OpenAIClient_generate_json (config : AIConfig) (prompt : pystr)
    (system_prompt : option pystr) (temperature : N) (max_tokens : Z) : M pyval :=
  let messages := openai_messages prompt system_prompt in
  let* m := get_model config in
  let* response := chat_completions_create
    {| chat_model := m; chat_messages := messages;
       chat_temperature := temperature; chat_max_tokens := max_tokens;
       chat_json_object := true |} in
  let* c := first_choice_content response in
  let content := or_else c (lit "{}") in
  lift (json_loads L content).

(** The keyword arguments the messages-style client builds. *)
Definition anthropic_kwargs (m : pystr) (prompt : pystr)
    (system_prompt : option pystr) (temperature : N) (max_tokens : Z) : messages_request :=
  {| msg_model := m;
     msg_max_tokens := max_tokens;
     msg_messages := [ {| role := lit "user"; content := prompt |} ];
     msg_system := if truthy_opt system_prompt then system_prompt else None;
     msg_temperature := if float_gt_zero temperature then Some temperature else None |}.

(** [AnthropicClient.generate] *)
Definition AnthropicClient_generate (config : AIConfig) (prompt : pystr)
    (system_prompt : option pystr) (temperature : N) (max_tokens : Z) : M pystr :=
  let* m := get_model config in
  let kwargs := anthropic_kwargs m prompt system_prompt temperature max_tokens in
  let* response := messages_create kwargs in
  first_block_text response.

(** The extraction of the JSON text from a reply of the messages-style
    client: code-fence markers around it are removed. *)
Definition strip_code_fences (content : pystr) : pystr :=
  let content := py_strip content in
  let content :=
    if py_startswith content (lit "```json") then slice_from 7 content
    else if py_startswith content (lit "```") then slice_from 3 content
    else content in
  let content :=
    if py_endswith content (lit "```") then slice_to_minus 3 content
    else content in
  py_strip content.

(** [AnthropicClient.generate_json] *)
Definition AnthropicClient_generate_json (config : AIConfig) (prompt : pystr)
    (system_prompt : option pystr) (temperature : N) (max_tokens : Z) : M pyval :=
  let json_prompt :=
    prompt ++ lit "

Respond with valid JSON only. No explanation or markdown formatting." in
  let* m := get_model config in
  let kwargs := anthropic_kwargs m json_prompt system_prompt temperature max_tokens in
  let* response := messages_create kwargs in
  let* content := first_block_text response in
  lift (json_loads L (strip_code_fences content)).

(** Dynamic dispatch of [generate] and [generate_json] on the client. *)
Definition generate (self : AIClient) (prompt : pystr)
    (system_prompt : option pystr) (temperature : N) (max_tokens : Z) : M pystr :=
  match self with
  | OpenAIClient c => OpenAIClient_generate c prompt system_prompt temperature max_tokens
  | AnthropicClient c => AnthropicClient_generate c prompt system_prompt temperature max_tokens
  end.

Definition generate_json (self : AIClient) (prompt : pystr)
    (system_prompt : option pystr) (temperature : N) (max_tokens : Z) : M pyval :=
  match self with
  | OpenAIClient c => OpenAIClient_generate_json c prompt system_prompt temperature max_tokens
  | AnthropicClient c => AnthropicClient_generate_json c prompt system_prompt temperature max_tokens
  end.

(** [os.environ.get(name)] *)
Definition environ_get (name : pystr) : M (option pystr) :=
  gets (fun w => environ w !! name).

(** The first block of [get_ai_client]: the provider and the key when no
    provider was given. *)
Definition auto_detect (api_key : option pystr) : M (pystr * option pystr) :=
  if truthy_opt api_key then
    user_error (lit "When providing an API key, you must also specify the provider (--provider openai or --provider anthropic)")
  else
    let* o := environ_get (lit "OPENAI_API_KEY") in
    if truthy_opt o then ret (lit "openai", o)
    else
      let* a := environ_get (lit "ANTHROPIC_API_KEY") in
      if truthy_opt a then ret (lit "anthropic", a)
      else user_error (lit "No API key found. Please set OPENAI_API_KEY or ANTHROPIC_API_KEY environment variable, or use --api-key with --provider option.").

(** The second block of [get_ai_client]: the key of a known provider,
    from the environment when it was not given. *)
Definition resolve_api_key (provider : pystr) (api_key : option pystr) : M pystr :=
  match api_key with
  | Some k => ret k
  | None =>
      let env_var := py_upper provider ++ lit "_API_KEY" in
      let* k := environ_get env_var in
      if truthy_opt k then ret (default [] k)
      else user_error (lit "API key not found. Please set " ++ env_var
                       ++ lit " environment variable or use --api-key option.")
  end.

(** The end of [get_ai_client]: the constructor that matches the
    provider of the configuration. *)
Definition make_client (config : AIConfig) : M AIClient :=
  if bool_decide (provider config = lit "openai") then OpenAIClient_init config
  else if bool_decide (provider config = lit "anthropic") then AnthropicClient_init config
  else user_error (lit "Unknown AI provider: " ++ provider config
                   ++ lit ". Supported providers: openai, anthropic").

(** [get_ai_client] *)
Definition get_ai_client (provider : option pystr) (api_key : option pystr)
    (model : option pystr) : M AIClient :=
  let* pk :=
    match provider with
    | None => auto_detect api_key
    | Some p => ret (p, api_key)
    end in
  let provider := fst pk in
  let* api_key := resolve_api_key provider (snd pk) in
  make_client {| provider := provider; api_key := api_key; model := model |}.

(** *** parser.py *)

Definition blank_line : pystr := [10; 10].

(** [extract_text_from_pdf] *)
Definition extract_text_from_pdf (file_path : Path) : M pystr :=
  match pypdf_pages L with
  | None => user_error (lit "pypdf package is not installed. Install it with: pip install pypdf")
  | Some reader =>
      try_except
        (let* b := read_bytes file_path in
         let* pages := lift (reader b) in
         let text_parts := filter (fun text => truthy text = true) pages in
         ret (py_join blank_line text_parts))
        (fun e => user_error (lit "Failed to extract text from PDF: " ++ exn_str e))
  end.

(** The entry of one table row: its non-blank cells, stripped. *)
Definition row_text (cells : list pystr) : list pystr :=
  map py_strip (filter (fun cell => truthy (py_strip cell) = true) cells).

(** [extract_text_from_docx] *)
Definition extract_text_from_docx (file_path : Path) : M pystr :=
  match docx_Document L with
  | None => user_error (lit "python-docx package is not installed. Install it with: pip install python-docx")
  | Some open_document =>
      try_except
        (let* b := read_bytes file_path in
         let* doc := lift (open_document b) in
         let from_paragraphs :=
           filter (fun text => truthy (py_strip text) = true) (paragraphs doc) in
         let from_tables :=
           map (py_join (lit " | "))
             (filter (fun r => bool_decide (r <> []))
                (map row_text (concat (tables doc)))) in
         ret (py_join blank_line (from_paragraphs ++ from_tables)))
        (fun e => user_error (lit "Failed to extract text from DOCX: " ++ exn_str e))
  end.

(** [file_path.read_text(encoding=...)] with the given decoder. *)
Definition read_text (decoder : list N -> result pystr) (file_path : Path) : M pystr :=
  let* b := read_bytes file_path in lift (decoder b).

(** [extract_text_from_txt] *)
Definition extract_text_from_txt (file_path : Path) : M pystr :=
  let wrap (e : exn) : M pystr :=
    user_error (lit "Failed to read text file: " ++ exn_str e) in
  try_except (read_text (read_utf8 L) file_path)
    (fun e =>
       match exn_cls e with
       | UnicodeDecodeError => try_except (read_text (read_latin1 L) file_path) wrap
       | _ => wrap e
       end).

(** [extract_resume_text] *)
Definition extract_resume_text (file_path : Path) : M pystr :=
  let* e := path_exists file_path in
  if negb e then user_error (lit "File not found: " ++ path_str file_path)
  else
    let suffix := py_lower (path_suffix file_path) in
    if bool_decide (suffix = lit ".pdf") then extract_text_from_pdf file_path
    else if bool_decide (suffix = lit ".docx") then extract_text_from_docx file_path
    else if bool_decide (suffix ∈ [lit ".txt"; lit ".md"; lit ".rst"])
    then extract_text_from_txt file_path
    else user_error (lit "Unsupported file format: " ++ suffix
                     ++ lit ". Supported formats: PDF, DOCX, TXT, MD").

(** *** service.py *)

(** The user prompt templates of [prompts.py] with their placeholders
    filled ([str.format]). *)
Definition PARSE_RESUME_USER_PROMPT_format (resume_text : pystr) : pystr :=
  lit "Please parse the following resume and convert it to RenderCV JSON format:

---
" ++ resume_text ++ lit "
---

Extract all information and return a valid JSON object with the structure specified in your instructions.".

Definition POLISH_RESUME_USER_PROMPT_format (resume_json : pystr) : pystr :=
  lit "Please improve and polish the following resume JSON to make it more impactful and professional:

```json
" ++ resume_json ++ lit "
```

Return the improved resume in the same JSON format. Focus on:
- Strengthening action verbs
- Adding quantifiable metrics where reasonable
- Improving clarity and conciseness
- Enhancing professional impact".

Definition TAILOR_RESUME_USER_PROMPT_format (job_description resume_json : pystr) : pystr :=
  lit "Please tailor the following resume to better match this job description:

## Job Description:
" ++ job_description ++ lit "

## Current Resume (JSON):
```json
" ++ resume_json ++ lit "
```

Return the tailored resume in the same JSON format. Remember to only emphasize existing skills and experience - do not fabricate anything new.".

Definition GENERATE_RESUME_USER_PROMPT_format (user_info : pystr) : pystr :=
  lit "Please generate a professional resume based on the following information:

" ++ user_info ++ lit "

Create a complete, polished resume in JSON format. Make sure to:
- Use professional language and strong action verbs
- Organize information logically
- Include all provided information in appropriate sections
- Format dates consistently (YYYY-MM)".

Record AIResumeService := { client : AIClient }.

(** [AIResumeService.__init__] *)
Definition AIResumeService_init (provider api_key model : option pystr) : M AIResumeService :=
  let* c := get_ai_client provider api_key model in
  ret {| client := c |}.

(** The check shared by the operations: [if "cv" not in result: raise]. *)
Definition require_cv (msg : pystr) (result : pyval) : M pyval :=
  let* has_cv := lift (py_in (lit "cv") result) in
  if negb has_cv then user_error msg else ret result.

(** [AIResumeService.parse_resume] *)
Definition parse_resume (self : AIResumeService) (file_path : Path) : M pyval :=
  let* resume_text := extract_resume_text file_path in
  if negb (truthy (py_strip resume_text)) then
    user_error (lit "Could not extract any text from " ++ path_str file_path
                ++ lit ". The file may be image-based or corrupted.")
  else
    let prompt := PARSE_RESUME_USER_PROMPT_format resume_text in
    let* result := generate_json (client self) prompt (Some PARSE_RESUME_PROMPT)
                     float_0_2 8192 in
    require_cv (lit "AI failed to generate valid resume structure. Please try again.") result.

(** [AIResumeService.polish_resume] *)
Definition polish_resume (self : AIResumeService) (resume_data : pyval)
    (focus_areas : option (list pystr)) : M pyval :=
  let resume_json := json_dumps L resume_data in
  let prompt := POLISH_RESUME_USER_PROMPT_format resume_json in
  let prompt :=
    match focus_areas with
    | Some (a :: areas) =>
        prompt ++ lit "

Please focus especially on improving: " ++ py_join (lit ", ") (a :: areas)
    | _ => prompt
    end in
  let* result := generate_json (client self) prompt (Some POLISH_RESUME_PROMPT)
                   float_0_5 8192 in
  require_cv (lit "AI failed to generate valid polished resume. Please try again.") result.

(** [AIResumeService.tailor_resume] *)
Definition tailor_resume (self : AIResumeService) (resume_data : pyval)
    (job_description : pystr) : M pyval :=
  if negb (truthy (py_strip job_description)) then
    user_error (lit "Job description cannot be empty.")
  else
    let resume_json := json_dumps L resume_data in
    let prompt := TAILOR_RESUME_USER_PROMPT_format job_description resume_json in
    let* result := generate_json (client self) prompt (Some TAILOR_RESUME_PROMPT)
                     float_0_4 8192 in
    let failed : M pyval :=
      user_error (lit "AI failed to generate valid tailored resume. Please try again.") in
    let* has_cv := lift (py_in (lit "cv") result) in
    if negb has_cv then
      let* has_resume := lift (py_in (lit "resume") result) in
      if has_resume then
        let* inner := lift (py_getitem result (lit "resume")) in
        let* inner_has_cv := lift (py_in (lit "cv") inner) in
        if inner_has_cv then ret inner else failed
      else failed
    else ret result.

(** [AIResumeService.generate_resume] *)
Definition generate_resume (self : AIResumeService) (user_info : pystr) : M pyval :=
  if negb (truthy (py_strip user_info)) then
    user_error (lit "User information cannot be empty.")
  else
    let prompt := GENERATE_RESUME_USER_PROMPT_format user_info in
    let* result := generate_json (client self) prompt (Some GENERATE_RESUME_PROMPT)
                     float_0_6 8192 in
    require_cv (lit "AI failed to generate valid resume. Please try again.") result.

(** Objects held by reference: reading, membership and item assignment
    through the reference, and allocation of a new object. *)
Definition deref (r : positive) : M pyval :=
  let* o := gets (fun w => heap w !! r) in
  match o with
  | Some v => ret v
  | None => raise (Exn LibraryError (lit "dangling reference"))
  end.

Definition obj_contains (r : positive) (key : pystr) : M bool :=
  let* v := deref r in lift (py_in key v).

Definition obj_setitem (r : positive) (key : pystr) (x : pyval) : M unit :=
  let* v := deref r in
  let* v' := lift (py_setitem v key x) in
  modify (fun w => set_heap (<[r := v']> (heap w)) w).

Definition alloc (v : pyval) : M positive :=
  let* r := gets (fun w => fresh (dom (heap w))) in
  modify (fun w => set_heap (<[r := v]> (heap w)) w) >> ret r.

(** [if key not in resume_data: resume_data[key] = block] *)
Definition set_default (resume_data : positive) (key : pystr) (blk : pyval) : M unit :=
  let* present := obj_contains resume_data key in
  if negb present then obj_setitem resume_data key blk else ret tt.

(** [save_resume_yaml]; [resume_data] is the caller's dictionary. *)
Definition save_resume_yaml (resume_data : positive) (output_path : Path)
    (theme locale : pystr) : M unit :=
  set_default resume_data (lit "design") (PDict {[ lit "theme" := PStr theme ]}) >>
  set_default resume_data (lit "locale") (PDict {[ lit "language" := PStr locale ]}) >>
  let* v := deref resume_data in
  write_bytes output_path (yaml_dump L v).

(** [load_resume_yaml] *)
Definition load_resume_yaml (file_path : Path) : M (gmap pystr pyval) :=
  let* e := path_exists file_path in
  if negb e then user_error (lit "File not found: " ++ path_str file_path)
  else
    try_except
      (let* b := read_bytes file_path in
       let* data := lift (yaml_load L b) in
       match data with
       | PDict d => ret d
       | _ => user_error (lit "Invalid YAML structure in " ++ path_str file_path)
       end)
      (fun e =>
         if is_user_error e then raise e
         else user_error (lit "Failed to load YAML file: " ++ exn_str e)).

(** [read_job_description] *)
Definition read_job_description (source : pystr) : M pystr :=
  let path := pathlib_Path L source in
  let* e := path_exists path in
  let* f := if e then path_is_file path else ret false in
  if f then try_except (read_text (read_utf8 L) path) (fun _ => ret source)
  else ret source.

(** *** ai_command.py *)

(** [if key in resume_data and key not in new_data:
       new_data[key] = resume_data[key]] *)
Definition preserve (resume_data : gmap pystr pyval) (new_data : positive)
    (key : pystr) : M unit :=
  match resume_data !! key with
  | Some x =>
      let* present := obj_contains new_data key in
      if negb present then obj_setitem new_data key x else ret tt
  | None => ret tt
  end.

(** The block shared by [ai_polish] and [ai_tailor] that preserves the
    metadata of the original document. *)
Definition carry_over (resume_data : gmap pystr pyval) (new_data : positive) : M unit :=
  preserve resume_data new_data (lit "design") >>
  preserve resume_data new_data (lit "locale") >>
  preserve resume_data new_data (lit "settings").

(** [pathlib.Path(name)] for a single component. *)
Definition Path_of_name (name : pystr) : Path := {| anchor := []; parts := [name] |}.

(** [ai_polish], without its console output. *)
Definition ai_polish (input_file : Path) (output : option Path)
    (focus : option (list pystr)) (in_place : bool)
    (provider api_key model : option pystr) : M unit :=
  let output :=
    if in_place then input_file
    else match output with
         | None => Path_of_name (path_stem input_file ++ lit "_polished.yaml")
         | Some o => o
         end in
  let* resume_data := load_resume_yaml input_file in
  let* service := AIResumeService_init provider api_key model in
  let* polished := polish_resume service (PDict resume_data) focus in
  let* polished_data := alloc polished in
  carry_over resume_data polished_data >>
  save_resume_yaml polished_data output (lit "classic") (lit "english").

(** [ai_tailor], without its console output. *)
Definition ai_tailor (input_file : Path) (job : pystr) (output : option Path)
    (provider api_key model : option pystr) : M unit :=
  let output :=
    match output with
    | None => Path_of_name (path_stem input_file ++ lit "_tailored.yaml")
    | Some o => o
    end in
  let* job_description := read_job_description job in
  let* resume_data := load_resume_yaml input_file in
  let* service := AIResumeService_init provider api_key model in
  let* tailored := tailor_resume service (PDict resume_data) job_description in
  let* tailored_data := alloc tailored in
  carry_over resume_data tailored_data >>
  save_resume_yaml tailored_data output (lit "classic") (lit "english").

(** *** Documents after the metadata steps

    What a dictionary becomes by [if key not in d: d[key] = blk], by the
    two defaults of [save_resume_yaml], and by the three steps of the
    carry-over block. *)
Definition default_item (key : pystr) (blk : pyval) (d : gmap pystr pyval)
    : gmap pystr pyval :=
  match d !! key with
  | Some _ => d
  | None => <[key := blk]> d
  end.

Definition design_block (theme : pystr) : pyval := PDict {[ lit "theme" := PStr theme ]}.
Definition locale_block (locale : pystr) : pyval := PDict {[ lit "language" := PStr locale ]}.

Definition with_defaults (theme locale : pystr) (d : gmap pystr pyval)
    : gmap pystr pyval :=
  default_item (lit "locale") (locale_block locale)
    (default_item (lit "design") (design_block theme) d).

Definition preserved_item (old : gmap pystr pyval) (key : pystr)
    (d : gmap pystr pyval) : gmap pystr pyval :=
  match old !! key with
  | Some x => default_item key x d
  | None => d
  end.

Definition carried_over (old d : gmap pystr pyval) : gmap pystr pyval :=
  preserved_item old (lit "settings")
    (preserved_item old (lit "locale")
       (preserved_item old (lit "design") d)).

(** The three metadata keys. *)
Definition metadata_keys : list pystr := [lit "design"; lit "locale"; lit "settings"].

(** The world with the object at [r] replaced by [v]. *)
Definition with_obj (r : positive) (v : pyval) (w : world) : world :=
  set_heap (<[r := v]> (heap w)) w.

(** The world with the file at [p] holding [b]. *)
Definition with_file (p : Path) (b : list N) (w : world) : world :=
  set_fs (<[path_str p := FFile b]> (fs w)) w.

(** The end of both flows: the new document becomes an object of its
    own, the metadata of the old one is carried over, and it is saved. *)
Definition finish_flow (resume_data : gmap pystr pyval) (new_doc : pyval)
    (output : Path) : M unit :=
  let* new_data := alloc new_doc in
  carry_over resume_data new_data >>
  save_resume_yaml new_data output (lit "classic") (lit "english").

(** *** ai_command.py, the other two commands *)

(** [ai_parse], without its console output. *)
Definition ai_parse (input_file : Path) (output : option Path)
    (theme locale : pystr) (provider api_key model : option pystr) : M unit :=
  let output :=
    match output with
    | None => Path_of_name (path_stem input_file ++ lit "_CV.yaml")
    | Some o => o
    end in
  let* service := AIResumeService_init provider api_key model in
  let* resume := parse_resume service input_file in
  let* resume_data := alloc resume in
  save_resume_yaml resume_data output theme locale.

(** The inner loop of the interactive mode of [ai_generate]: lines are
    read from the console until an empty line follows an empty line; the
    second one is not kept.  [stdin] is what the console still has to
    give, and [None] is the [EOFError] of [input()] on an exhausted
    console. *)
Fixpoint read_block (lines : list pystr) (stdin : list pystr)
    : option (list pystr * list pystr) :=
  match stdin with
  | [] => None
  | line :: rest =>
      if bool_decide (line = []) && bool_decide (List.last lines [0] = [])
      then Some (lines, rest)
      else read_block (lines ++ [line]) rest
  end.

(** The sections asked for, by the title-cased key that labels them in
    the gathered text ([key.title()]). *)
Definition section_titles : list pystr :=
  [lit "Headline"; lit "Location"; lit "Email"; lit "Phone"; lit "Linkedin";
   lit "Github"; lit "Website"; lit "Education"; lit "Experience"; lit "Skills";
   lit "Projects"; lit "Certifications"].

(** The loop over the sections: each answer is stripped and, unless it
    is empty, appended under its title. *)
Fixpoint gather_sections (titles : list pystr) (user_info : pystr)
    (stdin : list pystr) : option (pystr * list pystr) :=
  match titles with
  | [] => Some (user_info, stdin)
  | title :: titles' =>
      match read_block [] stdin with
      | None => None
      | Some (lines, rest) =>
          let value := py_strip (py_join [10] lines) in
          let user_info :=
            if truthy value
            then user_info ++ [10] ++ title ++ lit ":" ++ [10] ++ value ++ [10]
            else user_info in
          gather_sections titles' user_info rest
      end
  end.

(** [name.replace(' ', '_')] *)
Definition spaces_to_underscores (s : pystr) : pystr :=
  map (fun c => if c =? 32 then 95 else c) s.

(** The text [ai_generate] hands to the service. *)
Definition gather_user_info (name : pystr) (info : option pystr)
    (interactive : bool) (stdin : list pystr) : M pystr :=
  let user_info := lit "Name: " ++ name ++ blank_line in
  if interactive then
    match gather_sections section_titles user_info stdin with
    | Some (text, _) => ret text
    | None => raise (Exn LibraryError (lit "EOF when reading a line"))
    end
  else if truthy_opt info then
    let* info_text := read_job_description (default [] info) in
    ret (user_info ++ info_text)
  else
    ret (user_info ++ lit "Please generate a sample professional resume for a software engineer with 5 years of experience.").

(** [ai_generate], without its console output; [stdin] is what the user
    types in interactive mode. *)
Definition ai_generate (name : pystr) (info : option pystr) (interactive : bool)
    (output : option Path) (theme locale : pystr)
    (provider api_key model : option pystr) (stdin : list pystr) : M unit :=
  let output :=
    match output with
    | None => pathlib_Path L (spaces_to_underscores name ++ lit "_CV.yaml")
    | Some o => o
    end in
  let* user_info := gather_user_info name info interactive stdin in
  let* service := AIResumeService_init provider api_key model in
  let* resume := generate_resume service user_info in
  let* resume_data := alloc resume in
  save_resume_yaml resume_data output theme locale.

(** [self.config] of a client. *)
Definition client_config (c : AIClient) : AIConfig :=
  match c with
  | OpenAIClient config => config
  | AnthropicClient config => config
  end.

(** A computation whose failures are all user errors. *)
Definition raises_only_user_errors {A} (m : M A) : Prop :=
  forall w e, fst (m w) = Raise e -> exn_cls e = RenderCVUserError.

(** *** Effects

    What a computation may change: nothing but the log of calls, to which
    at most one call is added; nothing in the file system. *)
Definition same_but_calls (w w' : world) : Prop :=
  environ w' = environ w /\ fs w' = fs w /\ heap w' = heap w.

Definition at_most_one_call {A} (m : M A) : Prop :=
  forall w, same_but_calls w (snd (m w))
            /\ (calls (snd (m w)) = calls w
                \/ exists c, calls (snd (m w)) = calls w ++ [c]).

Definition keeps_files {A} (m : M A) : Prop :=
  forall w, fs (snd (m w)) = fs w.

(** A computation that leaves every file as it is, or succeeds and has
    then written the one file at [q]. *)
Definition writes_at_most {A} (q : pystr) (m : M A) : Prop :=
  forall w, fs (snd (m w)) = fs w
            \/ (exists b, fs (snd (m w)) = <[q := FFile b]> (fs w))
               /\ exists a, fst (m w) = Ok a.

(** Lines typed for one section: no empty line follows an empty line
    and the last line is not empty ([prev_empty] tells whether the line
    before the first one was empty). *)
Fixpoint single_spaced (prev_empty : bool) (body : list pystr) : bool :=
  match body with
  | [] => negb prev_empty
  | line :: body' =>
      if bool_decide (line = []) then negb prev_empty && single_spaced true body'
      else single_spaced false body'
  end.

(** The document the flows save, key by key: the value of the new
    document, else for a metadata key the value of the old one, else for
    [design] and [locale] the default block. *)
Definition saved_item (theme locale : pystr) (old new : gmap pystr pyval)
    (k : pystr) : option pyval :=
  match new !! k with
  | Some x => Some x
  | None =>
      if bool_decide (k ∈ metadata_keys) then
        match old !! k with
        | Some x => Some x
        | None =>
            if bool_decide (k = lit "design") then Some (design_block theme)
            else if bool_decide (k = lit "locale") then Some (locale_block locale)
            else None
        end
      else None
  end.

(** *** Notions used by the statements *)

(** A string is tight when it is not empty and neither starts nor ends
    with white space. *)
Definition tight (x : pystr) : Prop :=
  (exists c r, x = c :: r /\ py_isspace c = false) /\
  (exists r e, x = r ++ [e] /\ py_isspace e = false).

(** The opening fences. *)
Inductive opening_fence : pystr -> Prop :=
| fence_json : opening_fence (lit "```json")
| fence_plain : opening_fence (lit "```").

(** A computation that leaves the world as it is. *)
Definition read_only {A} (m : M A) : Prop := forall w, snd (m w) = w.

(** ** Properties *)

(** *** Facts about stripping *)

Lemma py_lstrip_blank s : blank s -> py_lstrip s = [].
Proof.
  induction 1 as [|c s Hc _ IH]; simpl; [done|]. by rewrite Hc.
Qed.

Lemma py_lstrip_app_blank w s : blank w -> py_lstrip (w ++ s) = py_lstrip s.
Proof.
  induction 1 as [|c w Hc _ IH]; simpl; [done|]. by rewrite Hc.
Qed.

Lemma py_lstrip_nonspace c s : py_isspace c = false -> py_lstrip (c :: s) = c :: s.
Proof. intros H. simpl. by rewrite H. Qed.

Lemma blank_rev s : blank s -> blank (rev s).
Proof. unfold blank. apply Forall_rev. Qed.

Lemma blank_app w1 w2 : blank w1 -> blank w2 -> blank (w1 ++ w2).
Proof. unfold blank. intros. by apply Forall_app. Qed.

Lemma py_rstrip_app_blank s w : blank w -> py_rstrip (s ++ w) = py_rstrip s.
Proof.
  intros Hw. unfold py_rstrip. rewrite rev_app_distr.
  rewrite py_lstrip_app_blank; [done|]. by apply blank_rev.
Qed.

Lemma py_rstrip_snoc_nonspace s c :
  py_isspace c = false -> py_rstrip (s ++ [c]) = s ++ [c].
Proof.
  intros H. unfold py_rstrip. rewrite rev_app_distr. simpl.
  rewrite H. simpl. by rewrite rev_involutive.
Qed.

Lemma py_strip_blank s : blank s -> py_strip s = [].
Proof. intros H. unfold py_strip. by rewrite py_lstrip_blank. Qed.

(** What is left of a non-blank string after [lstrip] starts with a
    non-space code point. *)
Lemma py_lstrip_cases s :
  py_lstrip s = [] /\ blank s \/
  exists w c r, s = w ++ c :: r /\ blank w /\ py_isspace c = false /\ py_lstrip s = c :: r.
Proof.
  induction s as [|a s IH]; [left; split; [done|constructor]|].
  simpl. destruct (py_isspace a) eqn:Ha.
  - destruct IH as [[E B]|(w & c & r & -> & Bw & Hc & E)].
    + left. split; [done|]. by constructor.
    + right. exists (a :: w), c, r. repeat split; try done. by constructor.
  - right. exists [], a, s. repeat split; try done. constructor.
Qed.

Lemma py_strip_empty_blank s : py_strip s = [] -> blank s.
Proof.
  unfold py_strip, py_rstrip. intros H.
  destruct (py_lstrip_cases s) as [[_ B]|(w & c & r & -> & Bw & Hc & E)]; [done|].
  rewrite E in H. exfalso.
  assert (Hr : py_lstrip (rev (c :: r)) = []).
  { apply (f_equal (@rev N)) in H. by rewrite rev_involutive in H. }
  destruct (py_lstrip_cases (rev (c :: r))) as [[_ B]|(w' & c' & r' & _ & _ & _ & E')].
  - apply blank_rev in B. rewrite rev_involutive in B.
    inversion B; congruence.
  - congruence.
Qed.

(** [not s.strip()] holds exactly for the blank strings. *)
Lemma strip_falsy_iff_blank s : truthy (py_strip s) = false <-> blank s.
Proof.
  split.
  - intros H. apply py_strip_empty_blank. by destruct (py_strip s).
  - intros H. by rewrite py_strip_blank.
Qed.

Lemma blank_nil : blank [].
Proof. constructor. Qed.

Lemma py_strip_tight w1 x w2 :
  tight x -> blank w1 -> blank w2 -> py_strip (w1 ++ x ++ w2) = x.
Proof.
  intros [(c & r & -> & Hc) (r' & e & E & He)] B1 B2.
  unfold py_strip. rewrite py_lstrip_app_blank by done.
  change ((c :: r) ++ w2) with (c :: (r ++ w2)).
  rewrite py_lstrip_nonspace by done.
  change (c :: (r ++ w2)) with ((c :: r) ++ w2).
  rewrite py_rstrip_app_blank by done.
  rewrite E. by apply py_rstrip_snoc_nonspace.
Qed.

Lemma py_strip_blank_around w1 s w2 :
  blank w1 -> blank w2 -> py_strip (w1 ++ s ++ w2) = py_strip s.
Proof.
  intros B1 B2. unfold py_strip. rewrite py_lstrip_app_blank by done.
  destruct (py_lstrip_cases s) as [[E B]|(w & c & r & -> & Bw & Hc & E)].
  - rewrite E. rewrite py_lstrip_app_blank, (py_lstrip_blank w2) by done. done.
  - rewrite E. rewrite <- app_assoc. rewrite py_lstrip_app_blank by done.
    change ((c :: r) ++ w2) with (c :: (r ++ w2)).
    rewrite py_lstrip_nonspace by done.
    change (c :: (r ++ w2)) with ((c :: r) ++ w2).
    by rewrite py_rstrip_app_blank.
Qed.

(** A string is white space, its stripped form, and white space. *)
Lemma py_strip_decompose s :
  exists w w', s = w ++ py_strip s ++ w' /\ blank w /\ blank w'.
Proof.
  unfold py_strip.
  destruct (py_lstrip_cases s) as [[E B]|(w & c & r & -> & Bw & Hc & E)].
  - exists s, []. rewrite E. cbn. rewrite app_nil_r. repeat split; [done|constructor].
  - rewrite E. unfold py_rstrip.
    destruct (py_lstrip_cases (rev (c :: r))) as [[E' B']|(w' & c' & r' & E0 & Bw' & Hc' & E')].
    + apply blank_rev in B'. rewrite rev_involutive in B'. inversion B'; congruence.
    + rewrite E'. exists w, (rev w'). split; [|split; [done|by apply blank_rev]].
      f_equal. apply (f_equal (@rev N)) in E0.
      rewrite rev_involutive, rev_app_distr in E0. done.
Qed.

Lemma py_startswith_app p r : py_startswith (p ++ r) p = true.
Proof. induction p as [|a p IH]; [done|]. simpl. by rewrite N.eqb_refl. Qed.

Lemma py_endswith_app r p : py_endswith (r ++ p) p = true.
Proof. unfold py_endswith. rewrite rev_app_distr. apply py_startswith_app. Qed.

Lemma slice_to_minus_app n r p : length p = n -> slice_to_minus n (r ++ p) = r.
Proof.
  intros <-. unfold slice_to_minus. rewrite length_app.
  replace (length r + length p - length p)%nat with (length r) by lia.
  by rewrite take_app_length.
Qed.

(** Closes [a <> c] from [H : c <> a'] where [a] computes to [a']. *)
Ltac differs H :=
  let E := fresh in intros E; apply H; rewrite <- E; reflexivity.

Lemma py_startswith_head_ne a p c s :
  a <> c -> py_startswith (c :: s) (a :: p) = false.
Proof. intros H. simpl. by apply N.eqb_neq in H as ->. Qed.

Lemma py_endswith_last_ne r e p a :
  a <> e -> py_endswith (r ++ [e]) (p ++ [a]) = false.
Proof.
  intros H. unfold py_endswith. rewrite !rev_app_distr. simpl.
  by apply N.eqb_neq in H as ->.
Qed.

Lemma json_first_not_space c : json_first c = true -> py_isspace c = false.
Proof.
  unfold json_first. rewrite orb_true_iff, existsb_exists.
  intros [H|(x & Hin & H)]; apply N.eqb_eq in H; subst; [done|].
  simpl in Hin. by repeat (destruct Hin as [<-|Hin]; [done|]).
Qed.

Lemma json_first_not_fence c : json_first c = true -> c <> 96 /\ c <> 106.
Proof.
  unfold json_first. rewrite orb_true_iff, existsb_exists.
  intros [H|(x & Hin & H)]; apply N.eqb_eq in H; subst; [done|].
  simpl in Hin. by repeat (destruct Hin as [<-|Hin]; [done|]).
Qed.

Lemma json_last_not_space c : json_last c = true -> py_isspace c = false.
Proof.
  unfold json_last. rewrite orb_true_iff, existsb_exists.
  intros [H|(x & Hin & H)]; apply N.eqb_eq in H; subst; [done|].
  simpl in Hin. by repeat (destruct Hin as [<-|Hin]; [done|]).
Qed.

Lemma json_last_not_fence c : json_last c = true -> c <> 96.
Proof.
  unfold json_last. rewrite orb_true_iff, existsb_exists.
  intros [H|(x & Hin & H)]; apply N.eqb_eq in H; subst; [done|].
  simpl in Hin. by repeat (destruct Hin as [<-|Hin]; [done|]).
Qed.

(** The stripped form of a JSON text: a first character, a last one, none
    of them a backquote. *)
Lemma json_text_shape s :
  json_text s = true ->
  exists c r r' e, py_strip s = c :: r /\ py_strip s = r' ++ [e] /\
    json_first c = true /\ json_last e = true.
Proof.
  unfold json_text. destruct (py_strip s) as [|c r] eqn:E; [done|].
  rewrite andb_true_iff. intros [Hc He].
  destruct (exists_last (l := c :: r)) as (r' & e & E'); [done|].
  exists c, r, r', e. repeat split; try done.
  assert (List.last r c = e) as <-; [|done].
  transitivity (List.last (c :: r) 0).
  - clear. revert c. induction r as [|a r IH]; intros c; [done|].
    change (List.last (a :: r) c = List.last (a :: r) 0).
    clear IH. revert a. induction r as [|b r IH]; intros a; [done|].
    apply (IH b).
  - rewrite E'. by rewrite last_last.
Qed.

Lemma json_text_tight s : json_text s = true -> tight (py_strip s).
Proof.
  intros (c & r & r' & e & E1 & E2 & Hc & He)%json_text_shape. split.
  - exists c, r. split; [done|]. by apply json_first_not_space.
  - exists r', e. split; [done|]. by apply json_last_not_space.
Qed.

(** A bare JSON text goes through the extraction unchanged but for its
    surrounding white space. *)
Lemma strip_code_fences_bare s :
  json_text s = true -> strip_code_fences s = py_strip s.
Proof.
  intros H. pose proof (json_text_tight s H) as T.
  destruct (json_text_shape s H) as (c & r & r' & e & E1 & E2 & Hc & He).
  destruct (json_first_not_fence c Hc) as [Hq _].
  pose proof (json_last_not_fence e He) as Hq'.
  unfold strip_code_fences.
  assert (py_startswith (py_strip s) (lit "```json") = false) as ->.
  { rewrite E1. apply py_startswith_head_ne. differs Hq. }
  assert (py_startswith (py_strip s) (lit "```") = false) as ->.
  { rewrite E1. apply py_startswith_head_ne. differs Hq. }
  assert (py_endswith (py_strip s) (lit "```") = false) as ->.
  { rewrite E2. apply (py_endswith_last_ne r' e [96; 96] 96). differs Hq'. }
  rewrite <- (app_nil_r (py_strip s)) at 1.
  apply (py_strip_tight [] (py_strip s) []); [done|constructor|constructor].
Qed.

(** A fenced JSON text goes through the extraction to the same text. *)
Lemma strip_code_fences_fenced fence w1 w2 s w3 w4 :
  opening_fence fence -> json_text s = true ->
  blank w1 -> blank w2 -> blank w3 -> blank w4 ->
  strip_code_fences (w1 ++ fence ++ w2 ++ s ++ w3 ++ lit "```" ++ w4) = py_strip s.
Proof.
  intros Hf H B1 B2 B3 B4. pose proof (json_text_tight s H) as T.
  destruct (json_text_shape s H) as (c & r & r' & e & E1 & E2 & Hc & He).
  destruct (json_first_not_fence c Hc) as [Hq Hj].
  destruct (py_strip_decompose s) as (w & w' & Es & Bw & Bw').
  set (t := py_strip s) in *.
  set (body := (w2 ++ w) ++ t ++ (w' ++ w3)).
  assert (Hbody : py_strip body = t).
  { apply py_strip_tight; [done|by apply blank_app..]. }
  assert (Hhead : forall rest, py_startswith (body ++ rest) (lit "json") = false).
  { intros rest. unfold body. destruct (w2 ++ w) as [|x bw] eqn:Ebw.
    - rewrite E1. apply py_startswith_head_ne. differs Hj.
    - assert (Hx : py_isspace x = true).
      { assert (B : blank (x :: bw)) by (rewrite <- Ebw; by apply blank_app).
        by inversion B. }
      apply py_startswith_head_ne. intros <-. done. }
  unfold strip_code_fences.
  assert (Ein : w1 ++ fence ++ w2 ++ s ++ w3 ++ lit "```" ++ w4
                = w1 ++ (fence ++ body ++ lit "```") ++ w4).
  { unfold body. rewrite Es at 1. by rewrite <- !app_assoc. }
  rewrite Ein.
  assert (Ht : tight (fence ++ body ++ lit "```")).
  { split.
    - destruct Hf; by eexists _, _.
    - exists (fence ++ body ++ [96; 96]), 96. split; [|done].
      by rewrite <- !app_assoc. }
  rewrite (py_strip_tight _ _ _ Ht B1 B4).
  destruct Hf.
  - rewrite py_startswith_app.
    change (slice_from 7 (lit "```json" ++ body ++ lit "```")) with (body ++ lit "```").
    rewrite py_endswith_app.
    rewrite (slice_to_minus_app 3 body (lit "```")) by done. done.
  - assert (py_startswith (lit "```" ++ body ++ lit "```") (lit "```json") = false) as ->.
    { change (py_startswith (body ++ lit "```") (lit "json") = false). apply Hhead. }
    rewrite py_startswith_app.
    change (slice_from 3 (lit "```" ++ body ++ lit "```")) with (body ++ lit "```").
    rewrite py_endswith_app.
    rewrite (slice_to_minus_app 3 body (lit "```")) by done. done.
Qed.

(** *** Computations that leave the world as it is *)

Lemma read_only_ret {A} (a : A) : read_only (ret a).
Proof. done. Qed.

Lemma read_only_raise {A} e : read_only (@raise A e).
Proof. done. Qed.

Lemma read_only_lift {A} (r : result A) : read_only (lift r).
Proof. done. Qed.

Lemma read_only_gets {A} (f : world -> A) : read_only (gets f).
Proof. done. Qed.

Lemma read_only_bind {A B} (m : M A) (k : A -> M B) :
  read_only m -> (forall a, read_only (k a)) -> read_only (bind m k).
Proof.
  intros Hm Hk w. unfold bind. specialize (Hm w).
  destruct (m w) as [[a|e] w']; simpl in *; subst; [apply Hk|done].
Qed.

Lemma read_only_try_except {A} (m : M A) h :
  read_only m -> (forall e, read_only (h e)) -> read_only (try_except m h).
Proof.
  intros Hm Hh w. unfold try_except. specialize (Hm w).
  destruct (m w) as [[a|e] w']; simpl in *; subst; [done|apply Hh].
Qed.

Lemma read_only_user_error {A} msg : read_only (@user_error A msg).
Proof. done. Qed.

Create HintDb ro.

#[local] Hint Resolve read_only_ret read_only_raise read_only_lift read_only_gets
  read_only_user_error : ro.

Ltac ro :=
  repeat first
    [ progress auto with ro
    | apply read_only_bind; [|intros ?]
    | apply read_only_try_except; [|intros ?]
    | match goal with
      | |- read_only (match ?x with _ => _ end) => destruct x
      | |- read_only (if ?b then _ else _) => destruct b
      end ].

Lemma read_bytes_read_only p : read_only (read_bytes p).
Proof. unfold read_bytes. ro. Qed.

Lemma path_exists_read_only p : read_only (path_exists p).
Proof. unfold path_exists. ro. Qed.

Lemma path_is_file_read_only p : read_only (path_is_file p).
Proof. unfold path_is_file. ro. Qed.

(** The three outcomes of [path.exists()]. *)
Lemma path_exists_present p w :
  is_Some (fs w !! path_str p) -> path_exists p w = (Ok true, w).
Proof. intros [n H]. unfold path_exists, bind, gets. by rewrite H. Qed.

Lemma path_exists_absent p w :
  fs w !! path_str p = None -> stat_error L (path_str p) = None ->
  path_exists p w = (Ok false, w).
Proof. intros H Hs. unfold path_exists, bind, gets. by rewrite H, Hs. Qed.

Lemma path_exists_stat_error p msg w :
  fs w !! path_str p = None -> stat_error L (path_str p) = Some msg ->
  path_exists p w = (Raise (Exn OSError msg), w).
Proof. intros H Hs. unfold path_exists, bind, gets. by rewrite H, Hs. Qed.

(** [path.exists()] fails only on a path the file system does not hold,
    with the error of [os.stat]. *)
Lemma path_exists_raises p e w w' :
  path_exists p w = (Raise e, w') ->
  fs w !! path_str p = None
  /\ exists msg, stat_error L (path_str p) = Some msg /\ e = Exn OSError msg.
Proof.
  unfold path_exists, bind, gets.
  destruct (fs w !! path_str p); [done|].
  destruct (stat_error L (path_str p)) as [msg|]; [|done].
  intros [= <- _]. eauto.
Qed.

Lemma path_exists_true p w w' :
  path_exists p w = (Ok true, w') -> is_Some (fs w !! path_str p).
Proof.
  unfold path_exists, bind, gets.
  destruct (fs w !! path_str p); [by eauto|].
  by destruct (stat_error L (path_str p)).
Qed.

#[local] Hint Resolve read_bytes_read_only path_exists_read_only
  path_is_file_read_only : ro.

Lemma extract_text_from_pdf_read_only p : read_only (extract_text_from_pdf p).
Proof. unfold extract_text_from_pdf. ro. Qed.

Lemma extract_text_from_docx_read_only p : read_only (extract_text_from_docx p).
Proof. unfold extract_text_from_docx. ro. Qed.

Lemma extract_text_from_txt_read_only p : read_only (extract_text_from_txt p).
Proof. unfold extract_text_from_txt, read_text. ro. Qed.

#[local] Hint Resolve extract_text_from_pdf_read_only extract_text_from_docx_read_only
  extract_text_from_txt_read_only : ro.

(** Text extraction reads the file system and changes nothing. *)
Lemma extract_resume_text_read_only p : read_only (extract_resume_text p).
Proof. unfold extract_resume_text. ro. Qed.

Lemma run_read_only {A} (m : M A) w : read_only m -> m w = (fst (m w), w).
Proof. intros H. specialize (H w). destruct (m w); simpl in *; by subst. Qed.

(** *** Preconditions of the service operations *)

Lemma falsy_strip_blank s : blank s -> negb (truthy (py_strip s)) = true.
Proof. intros H. by rewrite py_strip_blank. Qed.

(** C3. When the relevant text is blank or white space only, each
    service operation raises its own precondition error and the world is
    left as it was: in particular no call to a provider client has been
    logged.  [parse_resume] does so when the text extracted from the file
    is blank, [tailor_resume] when the job description is, and
    [generate_resume] when the free-form information is. *)
Theorem blank_input_raises_before_any_call
    (self : AIResumeService) (file_path : Path) (resume_data : pyval)
    (text : pystr) (w : world) :
  blank text ->
  (fst (extract_resume_text file_path w) = Ok text ->
   parse_resume self file_path w =
     (Raise (Exn RenderCVUserError
        (lit "Could not extract any text from " ++ path_str file_path
         ++ lit ". The file may be image-based or corrupted.")), w))
  /\ tailor_resume self resume_data text w =
       (Raise (Exn RenderCVUserError (lit "Job description cannot be empty.")), w)
  /\ generate_resume self text w =
       (Raise (Exn RenderCVUserError (lit "User information cannot be empty.")), w).
Proof.
  intros B. pose proof (falsy_strip_blank text B) as Hb. repeat split.
  - intros E. unfold parse_resume, bind.
    rewrite (run_read_only _ w (extract_resume_text_read_only file_path)), E.
    by rewrite Hb.
  - unfold tailor_resume. by rewrite Hb.
  - unfold generate_resume. by rewrite Hb.
Qed.

(** *** Provider clients *)

Lemma get_model_openai cfg w :
  provider cfg = lit "openai" -> exists m, get_model cfg w = (Ok m, w).
Proof.
  intros H. unfold get_model. destruct (truthy_opt (model cfg)); [by eexists|].
  rewrite H. by eexists.
Qed.

Lemma or_else_falsy x d : truthy_opt x = false -> or_else x d = d.
Proof. unfold or_else. by intros ->. Qed.

(** The chat-completion client turns a reply without content into the
    empty string. *)
Lemma OpenAIClient_generate_no_content cfg prompt sys temp max_tokens w c rest :
  provider cfg = lit "openai" ->
  (forall r, openai_create L r = Ok (c :: rest)) ->
  truthy_opt c = false ->
  fst (OpenAIClient_generate cfg prompt sys temp max_tokens w) = Ok [].
Proof.
  intros Hp Hr Hc. destruct (get_model_openai cfg w Hp) as [m Hm].
  unfold OpenAIClient_generate, bind. rewrite Hm.
  unfold chat_completions_create, bind, modify, lift. rewrite Hr. simpl.
  by rewrite or_else_falsy.
Qed.

Lemma OpenAIClient_generate_json_no_content cfg prompt sys temp max_tokens w c rest :
  provider cfg = lit "openai" ->
  (forall r, openai_create L r = Ok (c :: rest)) ->
  truthy_opt c = false ->
  exists w', OpenAIClient_generate_json cfg prompt sys temp max_tokens w
             = (json_loads L (lit "{}"), w').
Proof.
  intros Hp Hr Hc. destruct (get_model_openai cfg w Hp) as [m Hm].
  unfold OpenAIClient_generate_json, bind. rewrite Hm.
  unfold chat_completions_create, bind, modify, lift. rewrite Hr. simpl.
  rewrite or_else_falsy by done. by eexists.
Qed.

Lemma require_cv_empty msg w :
  require_cv msg (PDict ∅) w = (Raise (Exn RenderCVUserError msg), w).
Proof. done. Qed.

(** C10. When the reply of the chat-completion back end carries no
    content and [json.loads] reads the text of the empty object as the
    empty object, [generate_json] of the OpenAI client returns the empty
    object instead of failing on the parse, and each service operation
    that got past its precondition then reports the missing [cv] key as
    its own user error. *)
Theorem openai_no_content_is_empty_object
    (cfg : AIConfig) (self : AIResumeService) (prompt : pystr)
    (sys : option pystr) (temp : N) (max_tokens : Z)
    (c : option pystr) (rest : list (option pystr))
    (file_path : Path) (resume_data : pyval) (focus : option (list pystr))
    (text : pystr) (w : world) :
  provider cfg = lit "openai" ->
  client self = OpenAIClient cfg ->
  (forall r, openai_create L r = Ok (c :: rest)) ->
  truthy_opt c = false ->
  json_loads L (lit "{}") = Ok (PDict ∅) ->
  ~ blank text ->
  fst (OpenAIClient_generate_json cfg prompt sys temp max_tokens w) = Ok (PDict ∅)
  /\ (fst (extract_resume_text file_path w) = Ok text ->
      fst (parse_resume self file_path w) =
        Raise (Exn RenderCVUserError
          (lit "AI failed to generate valid resume structure. Please try again.")))
  /\ fst (polish_resume self resume_data focus w) =
       Raise (Exn RenderCVUserError
         (lit "AI failed to generate valid polished resume. Please try again."))
  /\ fst (tailor_resume self resume_data text w) =
       Raise (Exn RenderCVUserError
         (lit "AI failed to generate valid tailored resume. Please try again."))
  /\ fst (generate_resume self text w) =
       Raise (Exn RenderCVUserError
         (lit "AI failed to generate valid resume. Please try again.")).
Proof.
  intros Hp Hs Hr Hc Hj Hnb.
  assert (Hgen : forall prompt sys temp max_tokens w, exists w',
    generate_json (client self) prompt sys temp max_tokens w = (Ok (PDict ∅), w')).
  { intros. rewrite Hs. simpl. rewrite <- Hj.
    by eapply OpenAIClient_generate_json_no_content. }
  assert (Ht : negb (truthy (py_strip text)) = false).
  { destruct (truthy (py_strip text)) eqn:E; [done|].
    exfalso. apply Hnb. by apply strip_falsy_iff_blank. }
  repeat split.
  - destruct (OpenAIClient_generate_json_no_content cfg prompt sys temp max_tokens w c rest)
      as [w' ->]; try done.
  - intros E. unfold parse_resume, bind.
    rewrite (run_read_only _ w (extract_resume_text_read_only file_path)), E, Ht.
    edestruct Hgen as [w' ->]. done.
  - unfold polish_resume, bind. edestruct Hgen as [w' ->]. done.
  - unfold tailor_resume. rewrite Ht. unfold bind. edestruct Hgen as [w' ->]. done.
  - unfold generate_resume. rewrite Ht. unfold bind. edestruct Hgen as [w' ->]. done.
Qed.

(** *** Client factory *)

Lemma truthy_opt_Some_default k : truthy_opt k = true -> exists v, k = Some v /\ truthy v = true.
Proof. destruct k as [v|]; [|done]. intros H. by exists v. Qed.

(** C1 (amended). Credential resolution of [get_ai_client]:
    - an explicit provider with an explicit key is used as given, the
      environment is not consulted;
    - a non-empty key without a provider is the credential-without-
      provider error;
    - without a provider and with no key or an empty one,
      [OPENAI_API_KEY] is probed before [ANTHROPIC_API_KEY], and the
      first of them that is set to a non-empty value fixes the provider
      and the key;
    - when neither of them is set to a non-empty value, the no-API-key
      error is raised. *)
Theorem credential_resolution_precedence
    (p k v : pystr) (key m : option pystr) (w : world) :
  get_ai_client (Some p) (Some k) m w
    = make_client {| provider := p; api_key := k; model := m |} w
  /\ (truthy k = true ->
      get_ai_client None (Some k) m w =
        (Raise (Exn RenderCVUserError
           (lit "When providing an API key, you must also specify the provider (--provider openai or --provider anthropic)")), w))
  /\ (truthy_opt key = false ->
      (environ w !! lit "OPENAI_API_KEY" = Some v -> truthy v = true ->
       get_ai_client None key m w
         = make_client {| provider := lit "openai"; api_key := v; model := m |} w)
      /\ (truthy_opt (environ w !! lit "OPENAI_API_KEY") = false ->
          environ w !! lit "ANTHROPIC_API_KEY" = Some v -> truthy v = true ->
          get_ai_client None key m w
            = make_client {| provider := lit "anthropic"; api_key := v; model := m |} w)
      /\ (truthy_opt (environ w !! lit "OPENAI_API_KEY") = false ->
          truthy_opt (environ w !! lit "ANTHROPIC_API_KEY") = false ->
          get_ai_client None key m w =
            (Raise (Exn RenderCVUserError
               (lit "No API key found. Please set OPENAI_API_KEY or ANTHROPIC_API_KEY environment variable, or use --api-key with --provider option.")), w))).
Proof.
  split; [done|]. split.
  - intros Hk. unfold get_ai_client, auto_detect, bind. simpl. by rewrite Hk.
  - intros Hkey. repeat split.
    + intros Ho Hv. unfold get_ai_client, auto_detect, bind, environ_get, gets.
      rewrite Hkey, Ho. simpl. by rewrite Hv.
    + intros Ho Ha Hv. unfold get_ai_client, auto_detect, bind, environ_get, gets.
      rewrite Hkey, Ho, Ha. simpl. by rewrite Hv.
    + intros Ho Ha. unfold get_ai_client, auto_detect, bind, environ_get, gets.
      by rewrite Hkey, Ho, Ha.
Qed.

(** The constructor chosen for a configuration does not depend on the
    state of the world. *)
Lemma make_client_world cfg w w' : fst (make_client cfg w) = fst (make_client cfg w').
Proof.
  unfold make_client, OpenAIClient_init, AnthropicClient_init.
  by repeat case_match.
Qed.

(** *** Text extractor *)

Lemma extract_resume_text_not_found p w :
  fs w !! path_str p = None -> stat_error L (path_str p) = None ->
  extract_resume_text p w =
    (Raise (Exn RenderCVUserError (lit "File not found: " ++ path_str p)), w).
Proof.
  intros H Hs. unfold extract_resume_text, bind. by rewrite path_exists_absent.
Qed.

(** For an existing path the extractor is chosen by the lower-cased
    suffix alone. *)
Lemma extract_resume_text_dispatch p w :
  is_Some (fs w !! path_str p) ->
  extract_resume_text p w =
    (let suffix := py_lower (path_suffix p) in
     if bool_decide (suffix = lit ".pdf") then extract_text_from_pdf p w
     else if bool_decide (suffix = lit ".docx") then extract_text_from_docx p w
     else if bool_decide (suffix ∈ [lit ".txt"; lit ".md"; lit ".rst"])
     then extract_text_from_txt p w
     else (Raise (Exn RenderCVUserError
             (lit "Unsupported file format: " ++ suffix
              ++ lit ". Supported formats: PDF, DOCX, TXT, MD")), w)).
Proof.
  intros H. unfold extract_resume_text, bind at 1.
  rewrite path_exists_present by done. simpl. by repeat case_match.
Qed.

(** *** Objects held by reference *)

Lemma heap_with_obj r v w : heap (with_obj r v w) !! r = Some v.
Proof. unfold with_obj. simpl. apply lookup_insert_eq. Qed.

Lemma heap_with_obj_ne r r' v w : r <> r' -> heap (with_obj r v w) !! r' = heap w !! r'.
Proof. intros H. unfold with_obj. simpl. by apply lookup_insert_ne. Qed.

Lemma with_obj_same r v w : heap w !! r = Some v -> with_obj r v w = w.
Proof.
  intros H. destruct w as [en f h c]. unfold with_obj, set_heap. simpl in *.
  f_equal. by apply insert_id.
Qed.

Lemma with_obj_twice r v1 v2 w : with_obj r v2 (with_obj r v1 w) = with_obj r v2 w.
Proof.
  unfold with_obj, set_heap. simpl. f_equal. apply insert_insert_eq.
Qed.

Lemma fs_with_obj r v w : fs (with_obj r v w) = fs w.
Proof. done. Qed.

Lemma deref_dict r v w : heap w !! r = Some v -> deref r w = (Ok v, w).
Proof. intros H. unfold deref, bind, gets. by rewrite H. Qed.

Lemma obj_setitem_dict r d key x w :
  heap w !! r = Some (PDict d) ->
  obj_setitem r key x w = (Ok tt, with_obj r (PDict (<[key := x]> d)) w).
Proof.
  intros H. unfold obj_setitem, bind. by rewrite (deref_dict r _ w H).
Qed.

Lemma obj_contains_dict r d key w :
  heap w !! r = Some (PDict d) ->
  obj_contains r key w = (Ok (bool_decide (is_Some (d !! key))), w).
Proof.
  intros H. unfold obj_contains, bind. by rewrite (deref_dict r _ w H).
Qed.

Lemma set_default_dict r d key blk w :
  heap w !! r = Some (PDict d) ->
  set_default r key blk w = (Ok tt, with_obj r (PDict (default_item key blk d)) w).
Proof.
  intros H. unfold set_default, bind. rewrite (obj_contains_dict r d key w H).
  unfold default_item. destruct (d !! key) as [x|] eqn:E.
  - rewrite bool_decide_eq_true_2 by done. simpl. by rewrite with_obj_same.
  - rewrite bool_decide_eq_false_2 by (by intros [? ?]). simpl.
    by apply obj_setitem_dict.
Qed.

Lemma preserve_dict old r d key w :
  heap w !! r = Some (PDict d) ->
  preserve old r key w = (Ok tt, with_obj r (PDict (preserved_item old key d)) w).
Proof.
  intros H. unfold preserve, preserved_item. destruct (old !! key) as [x|].
  - by apply set_default_dict.
  - by rewrite with_obj_same.
Qed.

Lemma write_bytes_file p b w :
  fs w !! path_str p <> Some FDir -> write_bytes p b w = (Ok tt, with_file p b w).
Proof.
  intros H. unfold write_bytes, bind, gets.
  destruct (fs w !! path_str p) as [[?|]|]; done.
Qed.

Lemma write_bytes_heap p b w : heap (snd (write_bytes p b w)) = heap w.
Proof.
  unfold write_bytes, bind, gets. by destruct (fs w !! path_str p) as [[?|]|].
Qed.

(** *** Saving and loading *)

(** [save_resume_yaml] on a dictionary: the caller's object becomes the
    document with its defaults, and that document is what is written. *)
Lemma save_resume_yaml_dict r d p theme locale w :
  heap w !! r = Some (PDict d) ->
  save_resume_yaml r p theme locale w =
    write_bytes p (yaml_dump L (PDict (with_defaults theme locale d)))
      (with_obj r (PDict (with_defaults theme locale d)) w).
Proof.
  intros H. unfold save_resume_yaml, bind.
  rewrite (set_default_dict r d _ _ w H).
  rewrite (set_default_dict r _ _ _ _ (heap_with_obj r _ w)).
  rewrite with_obj_twice.
  by rewrite (deref_dict r _ _ (heap_with_obj r _ w)).
Qed.

Lemma carry_over_dict old r d w :
  heap w !! r = Some (PDict d) ->
  carry_over old r w = (Ok tt, with_obj r (PDict (carried_over old d)) w).
Proof.
  intros H. unfold carry_over, bind.
  rewrite (preserve_dict old r d _ w H).
  rewrite (preserve_dict old r _ _ _ (heap_with_obj r _ w)), with_obj_twice.
  rewrite (preserve_dict old r _ _ _ (heap_with_obj r _ w)), with_obj_twice.
  done.
Qed.

Lemma default_item_lookup key blk d k :
  default_item key blk d !! k =
    if bool_decide (k = key) then Some (default blk (d !! key)) else d !! k.
Proof.
  unfold default_item. case_bool_decide as E.
  - subst k. destruct (d !! key) eqn:E; [done|]. by rewrite lookup_insert_eq.
  - destruct (d !! key); [done|]. by rewrite lookup_insert_ne.
Qed.

Lemma default_item_keeps key blk d k x :
  d !! k = Some x -> default_item key blk d !! k = Some x.
Proof.
  intros H. rewrite default_item_lookup. case_bool_decide; [|done].
  subst. by rewrite H.
Qed.

Lemma preserved_item_keeps old key d k x :
  d !! k = Some x -> preserved_item old key d !! k = Some x.
Proof.
  intros H. unfold preserved_item. destruct (old !! key); [|done].
  by apply default_item_keeps.
Qed.

Lemma preserved_item_copies old key d x :
  old !! key = Some x -> d !! key = None -> preserved_item old key d !! key = Some x.
Proof.
  intros Ho Hd. unfold preserved_item. rewrite Ho, default_item_lookup.
  rewrite bool_decide_eq_true_2 by done. by rewrite Hd.
Qed.

Lemma preserved_item_other old key d k :
  k <> key -> preserved_item old key d !! k = d !! k.
Proof.
  intros H. unfold preserved_item. destruct (old !! key); [|done].
  rewrite default_item_lookup. by rewrite bool_decide_eq_false_2.
Qed.

Lemma with_defaults_keeps theme locale d k x :
  d !! k = Some x -> with_defaults theme locale d !! k = Some x.
Proof. intros H. unfold with_defaults. by do 2 apply default_item_keeps. Qed.

Lemma with_defaults_design theme locale d :
  with_defaults theme locale d !! lit "design"
    = Some (default (design_block theme) (d !! lit "design")).
Proof.
  unfold with_defaults. rewrite default_item_lookup.
  rewrite bool_decide_eq_false_2 by done.
  rewrite default_item_lookup. by rewrite bool_decide_eq_true_2.
Qed.

Lemma with_defaults_locale theme locale d :
  with_defaults theme locale d !! lit "locale"
    = Some (default (locale_block locale) (d !! lit "locale")).
Proof.
  unfold with_defaults. rewrite default_item_lookup.
  rewrite bool_decide_eq_true_2 by done.
  rewrite default_item_lookup. by rewrite bool_decide_eq_false_2.
Qed.

Lemma with_defaults_other theme locale d k :
  k <> lit "design" -> k <> lit "locale" -> with_defaults theme locale d !! k = d !! k.
Proof.
  intros H1 H2. unfold with_defaults. rewrite !default_item_lookup.
  by rewrite !bool_decide_eq_false_2.
Qed.

Lemma carried_over_keeps old d k x :
  d !! k = Some x -> carried_over old d !! k = Some x.
Proof. intros H. unfold carried_over. by do 3 apply preserved_item_keeps. Qed.

Lemma carried_over_copies old d k x :
  k ∈ metadata_keys -> old !! k = Some x -> d !! k = None ->
  carried_over old d !! k = Some x.
Proof.
  intros Hk Ho Hd. unfold carried_over, metadata_keys in *.
  apply elem_of_cons in Hk as [->|Hk]; [|apply elem_of_cons in Hk as [->|Hk]].
  - do 2 apply preserved_item_keeps. by apply preserved_item_copies.
  - apply preserved_item_keeps. apply preserved_item_copies; [done|].
    by rewrite preserved_item_other.
  - apply list_elem_of_singleton in Hk as ->. apply preserved_item_copies; [done|].
    by rewrite !preserved_item_other.
Qed.

(** C9. [save_resume_yaml] works on the dictionary the caller passed,
    not on a copy: after the call, whether or not the file could be
    written, the object behind the caller's reference is the document
    with the default blocks inserted where [design] or [locale] was
    missing; the entries it had are kept and no other object changes. *)
Theorem save_resume_yaml_mutates_caller_dict
    (r : positive) (d : gmap pystr pyval) (p : Path) (theme locale : pystr)
    (w : world) :
  heap w !! r = Some (PDict d) ->
  exists d',
    heap (snd (save_resume_yaml r p theme locale w)) !! r = Some (PDict d')
    /\ (d !! lit "design" = None -> d' !! lit "design" = Some (design_block theme))
    /\ (d !! lit "locale" = None -> d' !! lit "locale" = Some (locale_block locale))
    /\ (forall k x, d !! k = Some x -> d' !! k = Some x)
    /\ (forall r', r' <> r ->
          heap (snd (save_resume_yaml r p theme locale w)) !! r' = heap w !! r').
Proof.
  intros H. exists (with_defaults theme locale d).
  rewrite (save_resume_yaml_dict r d p theme locale w H), write_bytes_heap.
  split; [apply heap_with_obj|]. repeat split.
  - intros E. by rewrite with_defaults_design, E.
  - intros E. by rewrite with_defaults_locale, E.
  - intros k x. apply with_defaults_keeps.
  - intros r' Hr. by apply heap_with_obj_ne.
Qed.

Lemma load_resume_yaml_file p b d w :
  fs w !! path_str p = Some (FFile b) ->
  yaml_load L b = Ok (PDict d) ->
  load_resume_yaml p w = (Ok d, w).
Proof.
  intros Hf Hl. unfold load_resume_yaml, bind at 1.
  rewrite path_exists_present by (by rewrite Hf). simpl.
  unfold try_except, read_bytes, bind, gets, lift. rewrite Hf. simpl. by rewrite Hl.
Qed.

(** On a file, [load_resume_yaml] gives what the YAML library reads from
    its bytes: the dictionary read, the structure error for any other
    value, and an error of the library wrapped in a user error. *)
Lemma load_resume_yaml_on_file p b w :
  fs w !! path_str p = Some (FFile b) ->
  load_resume_yaml p w =
    (match yaml_load L b with
     | Ok (PDict d) => Ok d
     | Ok _ =>
         Raise (Exn RenderCVUserError (lit "Invalid YAML structure in " ++ path_str p))
     | Raise e =>
         Raise (if is_user_error e then e
                else Exn RenderCVUserError (lit "Failed to load YAML file: " ++ exn_str e))
     end, w).
Proof.
  intros Hf. unfold load_resume_yaml, bind at 1.
  rewrite path_exists_present by (by rewrite Hf). simpl.
  unfold try_except, read_bytes, bind, gets, lift. rewrite Hf. simpl.
  destruct (yaml_load L b) as [[]|e]; simpl; try done.
  by destruct (is_user_error e).
Qed.


Lemma carry_over_then_save old r d p theme locale w :
  heap w !! r = Some (PDict d) ->
  fs w !! path_str p <> Some FDir ->
  (carry_over old r >> save_resume_yaml r p theme locale) w =
    (Ok tt,
     with_file p (yaml_dump L (PDict (with_defaults theme locale (carried_over old d))))
       (with_obj r (PDict (with_defaults theme locale (carried_over old d))) w)).
Proof.
  intros H Hp. unfold bind at 1. rewrite (carry_over_dict old r d w H).
  rewrite (save_resume_yaml_dict r _ p theme locale _ (heap_with_obj r _ w)).
  rewrite with_obj_twice. by rewrite write_bytes_file.
Qed.

Lemma bind_ok {A B} (m : M A) (k : A -> M B) w a w' :
  m w = (Ok a, w') -> bind m k w = k a w'.
Proof. intros H. unfold bind. by rewrite H. Qed.

Lemma alloc_fresh v w :
  alloc v w = (Ok (fresh (dom (heap w))), with_obj (fresh (dom (heap w))) v w).
Proof. done. Qed.

Lemma finish_flow_dict old d p w :
  fs w !! path_str p <> Some FDir ->
  exists w',
    finish_flow old (PDict d) p w = (Ok tt, w')
    /\ fs w' !! path_str p =
         Some (FFile (yaml_dump L
           (PDict (with_defaults (lit "classic") (lit "english") (carried_over old d))))).
Proof.
  intros Hp. unfold finish_flow.
  rewrite (bind_ok _ _ _ _ _ (alloc_fresh (PDict d) w)).
  rewrite (carry_over_then_save old _ d p _ _ _ (heap_with_obj _ _ w)) by done.
  eexists. split; [done|]. unfold with_file. simpl. apply lookup_insert_eq.
Qed.

Lemma ai_polish_finish input output focus in_place pr key m w old w1 svc w2 doc w3 :
  load_resume_yaml input w = (Ok old, w1) ->
  AIResumeService_init pr key m w1 = (Ok svc, w2) ->
  polish_resume svc (PDict old) focus w2 = (Ok doc, w3) ->
  ai_polish input output focus in_place pr key m w =
    finish_flow old doc
      (if in_place then input
       else match output with
            | None => Path_of_name (path_stem input ++ lit "_polished.yaml")
            | Some o => o
            end) w3.
Proof.
  intros H1 H2 H3. unfold ai_polish, bind at 1. rewrite H1.
  unfold bind at 1. rewrite H2. unfold bind at 1. by rewrite H3.
Qed.

Lemma read_job_description_read_only job : read_only (read_job_description job).
Proof. unfold read_job_description, read_text. ro. Qed.

(** A text that names no path the file system holds, and on which
    [os.stat] fails with an error that [exists] ignores, is the job
    description itself. *)
Lemma read_job_description_literal job w :
  fs w !! path_str (pathlib_Path L job) = None ->
  stat_error L (path_str (pathlib_Path L job)) = None ->
  read_job_description job w = (Ok job, w).
Proof.
  intros H Hs. unfold read_job_description, bind at 1.
  by rewrite path_exists_absent.
Qed.

(** [read_job_description] fails only in its existence test: the text
    names no path the file system holds and [os.stat] fails on it with an
    error that [exists] lets through (a text longer than a file name may
    be). *)
Lemma read_job_description_raises job e w w' :
  read_job_description job w = (Raise e, w') ->
  fs w !! path_str (pathlib_Path L job) = None
  /\ exists msg, stat_error L (path_str (pathlib_Path L job)) = Some msg
                 /\ e = Exn OSError msg.
Proof.
  unfold read_job_description, bind at 1.
  destruct (path_exists _ w) as [[[]|] w0] eqn:E.
  - unfold bind, path_is_file, gets, try_except, read_text, bind.
    destruct (fs w0 !! _) as [[b|]|]; simpl; try done.
    destruct (read_bytes _ w0) as [[?|?] ?]; simpl; try done.
    unfold lift. by destruct (read_utf8 L _).
  - done.
  - intros [= <- _]. by apply path_exists_raises in E.
Qed.

Lemma read_job_description_stat_error job msg w :
  fs w !! path_str (pathlib_Path L job) = None ->
  stat_error L (path_str (pathlib_Path L job)) = Some msg ->
  read_job_description job w = (Raise (Exn OSError msg), w).
Proof.
  intros H Hs. unfold read_job_description, bind at 1.
  by rewrite (path_exists_stat_error _ msg).
Qed.

Lemma ai_tailor_finish input job output pr key m w jd old w1 svc w2 doc w3 :
  fst (read_job_description job w) = Ok jd ->
  load_resume_yaml input w = (Ok old, w1) ->
  AIResumeService_init pr key m w1 = (Ok svc, w2) ->
  tailor_resume svc (PDict old) jd w2 = (Ok doc, w3) ->
  ai_tailor input job output pr key m w =
    finish_flow old doc
      (match output with
       | None => Path_of_name (path_stem input ++ lit "_tailored.yaml")
       | Some o => o
       end) w3.
Proof.
  intros H0 H1 H2 H3. unfold ai_tailor, bind at 1.
  rewrite (run_read_only _ w (read_job_description_read_only job)), H0.
  unfold bind at 1. rewrite H1.
  unfold bind at 1. rewrite H2. unfold bind at 1. by rewrite H3.
Qed.

(** C6. Carry-over law of the polish and tailor flows, for every way
    of choosing the output: a given path, the default name derived from
    the input, or, for polish, the input itself ([--in-place]).  With
    [old] the document loaded from the input file and [new] the
    dictionary the service returned, the flow succeeds and the document
    it saves has, for each of [design], [locale] and [settings] that
    [old] has and [new] lacks, the value of [old], and for every key of
    [new] the value of [new].  In particular, when [old] has the three
    keys and [new] has none of them, the saved document has the three
    values of [old]. *)
Theorem carry_over_law
    (input : Path) (output : option Path) (in_place : bool) (job : pystr)
    (focus : option (list pystr))
    (pr key m : option pystr) (svc : AIResumeService)
    (old new : gmap pystr pyval) (jd : pystr) (w w1 w2 w3 : world) :
  load_resume_yaml input w = (Ok old, w1) ->
  AIResumeService_init pr key m w1 = (Ok svc, w2) ->
  exists saved,
    (forall k x, k ∈ metadata_keys -> old !! k = Some x -> new !! k = None ->
                 saved !! k = Some x)
    /\ (forall k x, new !! k = Some x -> saved !! k = Some x)
    /\ (let out :=
          if in_place then input
          else default (Path_of_name (path_stem input ++ lit "_polished.yaml")) output in
        polish_resume svc (PDict old) focus w2 = (Ok (PDict new), w3) ->
        fs w3 !! path_str out <> Some FDir ->
        exists w',
          ai_polish input output focus in_place pr key m w = (Ok tt, w')
          /\ fs w' !! path_str out = Some (FFile (yaml_dump L (PDict saved))))
    /\ (let out :=
          default (Path_of_name (path_stem input ++ lit "_tailored.yaml")) output in
        fst (read_job_description job w) = Ok jd ->
        tailor_resume svc (PDict old) jd w2 = (Ok (PDict new), w3) ->
        fs w3 !! path_str out <> Some FDir ->
        exists w',
          ai_tailor input job output pr key m w = (Ok tt, w')
          /\ fs w' !! path_str out = Some (FFile (yaml_dump L (PDict saved)))).
Proof.
  intros Hl Hs.
  exists (with_defaults (lit "classic") (lit "english") (carried_over old new)).
  repeat split.
  - intros k x Hk Ho Hn. apply with_defaults_keeps. by apply carried_over_copies.
  - intros k x Hn. apply with_defaults_keeps. by apply carried_over_keeps.
  - intros out Hpol Hp.
    rewrite (ai_polish_finish _ _ _ _ _ _ _ _ _ _ _ _ _ _ Hl Hs Hpol).
    unfold out in *. destruct in_place, output; by apply finish_flow_dict.
  - intros out Hj Htl Hp.
    rewrite (ai_tailor_finish _ _ _ _ _ _ _ _ _ _ _ _ _ _ Hj Hl Hs Htl).
    unfold out in *. destruct output; by apply finish_flow_dict.
Qed.

(** *** The reply shapes the tailor operation accepts *)

Lemma bind_lift_ok {A B} (r : result A) (k : A -> M B) a w :
  r = Ok a -> bind (lift r) k w = k a w.
Proof. by intros ->. Qed.

(** Runs [tailor_resume] up to the reply of the client. *)
Ltac past_call Ht Hg :=
  unfold tailor_resume; rewrite Ht; unfold bind at 1; rewrite Hg;
  unfold bind, lift; simpl.

(** What [tailor_resume] makes of an object reply [r], once past its
    precondition:
    - [r] itself when it has the key [cv];
    - [r["resume"]] when [r] has no [cv] and its [resume] is a
      dictionary with the key [cv];
    - the user error when [r] has neither [cv] nor [resume], or when its
      [resume] is a dictionary without [cv];
    - a [TypeError] when [r] has no [cv] and its [resume] is [None], a
      Boolean or a number. *)
Lemma tailor_resume_on_object_reply (self : AIResumeService) (resume_data : pyval)
    (jd : pystr) (r : gmap pystr pyval) (w w' : world) :
  ~ blank jd ->
  (forall prompt,
     generate_json (client self) prompt (Some TAILOR_RESUME_PROMPT) float_0_4 8192 w
       = (Ok (PDict r), w')) ->
  let failed : result pyval :=
    Raise (Exn RenderCVUserError
      (lit "AI failed to generate valid tailored resume. Please try again.")) in
  (is_Some (r !! lit "cv") ->
     tailor_resume self resume_data jd w = (Ok (PDict r), w'))
  /\ (forall inner, r !! lit "cv" = None -> r !! lit "resume" = Some (PDict inner) ->
        is_Some (inner !! lit "cv") ->
        tailor_resume self resume_data jd w = (Ok (PDict inner), w'))
  /\ (forall inner, r !! lit "cv" = None -> r !! lit "resume" = Some (PDict inner) ->
        inner !! lit "cv" = None ->
        tailor_resume self resume_data jd w = (failed, w'))
  /\ (r !! lit "cv" = None -> r !! lit "resume" = None ->
        tailor_resume self resume_data jd w = (failed, w'))
  /\ (forall v, r !! lit "cv" = None -> r !! lit "resume" = Some v ->
        match v with PNone | PBool _ | PInt _ | PFloat _ => True | _ => False end ->
        exists msg, tailor_resume self resume_data jd w = (Raise (Exn TypeError msg), w')).
Proof.
  intros Hnb Hg failed.
  assert (Ht : negb (truthy (py_strip jd)) = false).
  { destruct (truthy (py_strip jd)) eqn:E; [done|].
    exfalso. apply Hnb. by apply strip_falsy_iff_blank. }
  repeat split.
  - intros Hcv. past_call Ht Hg. by rewrite bool_decide_eq_true_2.
  - intros inner Hcv Hres Hin. past_call Ht Hg.
    rewrite bool_decide_eq_false_2 by (rewrite Hcv; by intros [? ?]). simpl.
    rewrite bool_decide_eq_true_2 by (by rewrite Hres). rewrite Hres. simpl.
    by rewrite bool_decide_eq_true_2.
  - intros inner Hcv Hres Hin. past_call Ht Hg.
    rewrite bool_decide_eq_false_2 by (rewrite Hcv; by intros [? ?]). simpl.
    rewrite bool_decide_eq_true_2 by (by rewrite Hres). rewrite Hres. simpl.
    by rewrite bool_decide_eq_false_2 by (rewrite Hin; by intros [? ?]).
  - intros Hcv Hres. past_call Ht Hg.
    rewrite bool_decide_eq_false_2 by (rewrite Hcv; by intros [? ?]). simpl.
    by rewrite bool_decide_eq_false_2 by (rewrite Hres; by intros [? ?]).
  - intros v Hcv Hres Hv. past_call Ht Hg.
    rewrite bool_decide_eq_false_2 by (rewrite Hcv; by intros [? ?]). simpl.
    rewrite bool_decide_eq_true_2 by (by rewrite Hres). rewrite Hres. simpl.
    destruct v; try done; by eexists.
Qed.

(** ** Further properties *)

(** *** Client factory *)

Lemma resolve_api_key_read_only p k : read_only (resolve_api_key p k).
Proof. unfold resolve_api_key, environ_get. ro. Qed.

Lemma auto_detect_read_only k : read_only (auto_detect k).
Proof. unfold auto_detect, environ_get. ro. Qed.

Lemma make_client_read_only cfg : read_only (make_client cfg).
Proof. unfold make_client, OpenAIClient_init, AnthropicClient_init. ro. Qed.

#[local] Hint Resolve resolve_api_key_read_only auto_detect_read_only
  make_client_read_only : ro.

Lemma get_ai_client_read_only pr key m : read_only (get_ai_client pr key m).
Proof. unfold get_ai_client. ro. Qed.

Lemma make_client_known cfg w c w' :
  make_client cfg w = (Ok c, w') ->
  client_config c = cfg
  /\ (c = OpenAIClient cfg /\ provider cfg = lit "openai"
      \/ c = AnthropicClient cfg /\ provider cfg = lit "anthropic").
Proof.
  unfold make_client, OpenAIClient_init, AnthropicClient_init, user_error, raise, ret.
  repeat case_bool_decide; repeat case_match; intros [= <- <-]; auto.
Qed.

(** X1. A client that [get_ai_client] returns has one of the two known
    providers, of the matching class, with the model that was asked for;
    its provider is the one given when one was given; [get_model] on its
    configuration succeeds; and building it left the world as it was (no
    call to a back end is made at construction). *)
Theorem get_ai_client_returns_known_provider
    (pr key m : option pystr) (w w' : world) (c : AIClient) :
  get_ai_client pr key m w = (Ok c, w') ->
  w' = w
  /\ (c = OpenAIClient (client_config c) /\ provider (client_config c) = lit "openai"
      \/ c = AnthropicClient (client_config c)
         /\ provider (client_config c) = lit "anthropic")
  /\ model (client_config c) = m
  /\ (forall p, pr = Some p -> provider (client_config c) = p)
  /\ exists name, get_model (client_config c) w = (Ok name, w).
Proof.
  intros H.
  assert (Hw : w' = w).
  { pose proof (get_ai_client_read_only pr key m w) as E. by rewrite H in E. }
  subst w'. split; [done|].
  assert (exists p k, make_client {| provider := p; api_key := k; model := m |} w = (Ok c, w)
                      /\ forall q, pr = Some q -> p = q) as (p & k & Hm & Hp).
  { revert H. unfold get_ai_client, bind.
    destruct pr as [q|].
    - unfold ret. simpl.
      pose proof (resolve_api_key_read_only q key w) as E.
      destruct (resolve_api_key q key w) as [[k|e] w1]; simpl in *; subst; [|done].
      intros Hm. exists q, k. split; [done|]. by intros ? [= <-].
    - pose proof (auto_detect_read_only key w) as E.
      destruct (auto_detect key w) as [[[q k0]|e] w1]; simpl in *; subst; [|done].
      pose proof (resolve_api_key_read_only q k0 w) as E.
      destruct (resolve_api_key q k0 w) as [[k|e] w1]; simpl in *; subst; [|done].
      intros Hm. exists q, k. split; [done|]. done. }
  destruct (make_client_known _ _ _ _ Hm) as [Hc Hk]. rewrite Hc. simpl.
  split; [|split; [done|split; [done|]]].
  - destruct Hk as [[-> E]|[-> E]]; [left|right]; done.
  - unfold get_model. simpl.
    destruct (truthy_opt m); [by eexists|].
    destruct Hk as [[_ E]|[_ E]]; simpl in E; rewrite E; by eexists.
Qed.

Lemma py_upper_ascii s : forallb is_ascii s = true -> py_upper s = map ascii_upper s.
Proof. unfold py_upper. by intros ->. Qed.

(** X2. With a provider whose name is ASCII and no key given, the key
    is the value of the environment variable named by the upper-cased
    provider followed by [_API_KEY]; when that variable is unset or
    empty the error names that very variable.  This comes before the
    provider name is checked. *)
Theorem provider_key_comes_from_its_variable
    (p : pystr) (m : option pystr) (w : world) :
  forallb is_ascii p = true ->
  (forall v, environ w !! (map ascii_upper p ++ lit "_API_KEY") = Some v ->
     truthy v = true ->
     get_ai_client (Some p) None m w
       = make_client {| provider := p; api_key := v; model := m |} w)
  /\ (truthy_opt (environ w !! (map ascii_upper p ++ lit "_API_KEY")) = false ->
      get_ai_client (Some p) None m w =
        (Raise (Exn RenderCVUserError
           (lit "API key not found. Please set " ++ map ascii_upper p ++ lit "_API_KEY"
            ++ lit " environment variable or use --api-key option.")), w)).
Proof.
  intros Ha. split.
  - intros v Hv Ht. unfold get_ai_client, bind, ret, resolve_api_key, bind, environ_get, gets.
    simpl. rewrite (py_upper_ascii p Ha), Hv. simpl. by rewrite Ht.
  - intros Hf. unfold get_ai_client, bind, ret, resolve_api_key, bind, environ_get, gets.
    simpl. rewrite (py_upper_ascii p Ha), Hf. by rewrite <- !app_assoc.
Qed.

(** *** One call per operation *)

Lemma same_but_calls_refl w : same_but_calls w w.
Proof. done. Qed.

Lemma read_only_at_most_one_call {A} (m : M A) : read_only m -> at_most_one_call m.
Proof. intros H w. rewrite H. split; [done|by left]. Qed.

Lemma at_most_one_call_then {A B} (m : M A) (k : A -> M B) :
  at_most_one_call m -> (forall a, read_only (k a)) -> at_most_one_call (bind m k).
Proof.
  intros Hm Hk w. specialize (Hm w). unfold bind.
  destruct (m w) as [[a|e] w1]; simpl in *; [|done].
  by rewrite (Hk a w1).
Qed.

Lemma after_read_only {A B} (m : M A) (k : A -> M B) :
  read_only m -> (forall a, at_most_one_call (k a)) -> at_most_one_call (bind m k).
Proof.
  intros Hm Hk w. specialize (Hm w). unfold bind.
  destruct (m w) as [[a|e] w1]; simpl in *; subst; [apply Hk|].
  split; [done|by left].
Qed.

Lemma get_model_read_only cfg : read_only (get_model cfg).
Proof. unfold get_model. ro. Qed.

Lemma first_choice_content_read_only c : read_only (first_choice_content c).
Proof. unfold first_choice_content. ro. Qed.

Lemma first_block_text_read_only b : read_only (first_block_text b).
Proof. unfold first_block_text. ro. Qed.

#[local] Hint Resolve get_model_read_only first_choice_content_read_only
  first_block_text_read_only : ro.

Lemma chat_completions_create_one_call r : at_most_one_call (chat_completions_create r).
Proof.
  intros w. unfold chat_completions_create, bind, modify, lift. simpl.
  split; [done|]. right. by eexists.
Qed.

Lemma messages_create_one_call r : at_most_one_call (messages_create r).
Proof.
  intros w. unfold messages_create, bind, modify, lift. simpl.
  split; [done|]. right. by eexists.
Qed.

Lemma generate_json_at_most_one_call self prompt sys temp max_tokens :
  at_most_one_call (generate_json self prompt sys temp max_tokens).
Proof.
  destruct self as [cfg|cfg]; simpl.
  - unfold OpenAIClient_generate_json.
    apply after_read_only; [ro|]. intros m.
    apply at_most_one_call_then; [apply chat_completions_create_one_call|].
    intros a. ro.
  - unfold AnthropicClient_generate_json.
    apply after_read_only; [ro|]. intros m.
    apply at_most_one_call_then; [apply messages_create_one_call|].
    intros a. ro.
Qed.

Lemma generate_at_most_one_call self prompt sys temp max_tokens :
  at_most_one_call (generate self prompt sys temp max_tokens).
Proof.
  destruct self as [cfg|cfg]; simpl.
  - unfold OpenAIClient_generate.
    apply after_read_only; [ro|]. intros m.
    apply at_most_one_call_then; [apply chat_completions_create_one_call|].
    intros a. ro.
  - unfold AnthropicClient_generate.
    apply after_read_only; [ro|]. intros m.
    apply at_most_one_call_then; [apply messages_create_one_call|].
    intros a. ro.
Qed.

Lemma require_cv_read_only msg r : read_only (require_cv msg r).
Proof. unfold require_cv. ro. Qed.

#[local] Hint Resolve require_cv_read_only extract_resume_text_read_only : ro.

(** X3. Whatever the client and the back end do, each of the four
    service operations, and [generate] and [generate_json] themselves,
    add at most one call to the log and change nothing else: not the
    environment, not a file, not an object of the caller. *)
Theorem service_operations_call_at_most_once
    (self : AIResumeService) (file_path : Path) (resume_data : pyval)
    (focus : option (list pystr)) (text prompt : pystr) (sys : option pystr)
    (temp : N) (max_tokens : Z) :
  at_most_one_call (parse_resume self file_path)
  /\ at_most_one_call (polish_resume self resume_data focus)
  /\ at_most_one_call (tailor_resume self resume_data text)
  /\ at_most_one_call (generate_resume self text)
  /\ at_most_one_call (generate (client self) prompt sys temp max_tokens)
  /\ at_most_one_call (generate_json (client self) prompt sys temp max_tokens).
Proof.
  split; [|split; [|split; [|split; [|split]]]].
  - unfold parse_resume. apply after_read_only; [ro|]. intros t.
    destruct (negb _); [apply read_only_at_most_one_call; ro|].
    apply at_most_one_call_then; [apply generate_json_at_most_one_call|]. intros a. ro.
  - unfold polish_resume.
    apply at_most_one_call_then; [apply generate_json_at_most_one_call|]. intros a. ro.
  - unfold tailor_resume.
    destruct (negb _); [apply read_only_at_most_one_call; ro|].
    apply at_most_one_call_then; [apply generate_json_at_most_one_call|]. intros a. ro.
  - unfold generate_resume.
    destruct (negb _); [apply read_only_at_most_one_call; ro|].
    apply at_most_one_call_then; [apply generate_json_at_most_one_call|]. intros a. ro.
  - apply generate_at_most_one_call.
  - apply generate_json_at_most_one_call.
Qed.

(** *** Replies that cannot be used *)

Lemma not_blank_past_check text :
  ~ blank text -> negb (truthy (py_strip text)) = false.
Proof.
  intros H. destruct (truthy (py_strip text)) eqn:E; [done|].
  exfalso. apply H. by apply strip_falsy_iff_blank.
Qed.

(** Runs the call of the client in the goal, whose outcome [Hg] gives. *)
Ltac run_client Hg :=
  match goal with
  | |- context [generate_json ?c ?p ?s ?t ?mt ?w] =>
      let E := fresh "E" in
      pose proof (Hg p s t) as E;
      destruct (generate_json c p s t mt w) as [? ?]; simpl in E; subst
  end.

(** X4. A failure of [generate_json] (a reply that is not JSON, an
    error of the back end, a reply without content on the messages-style
    client) comes out of every service operation as it is: the same
    exception, not wrapped into a user error. *)
Theorem client_failure_propagates_unchanged
    (self : AIResumeService) (file_path : Path) (resume_data : pyval)
    (focus : option (list pystr)) (text : pystr) (e : exn) (w : world) :
  (forall prompt sys temp,
     fst (generate_json (client self) prompt sys temp 8192 w) = Raise e) ->
  ~ blank text ->
  (fst (extract_resume_text file_path w) = Ok text ->
   fst (parse_resume self file_path w) = Raise e)
  /\ fst (polish_resume self resume_data focus w) = Raise e
  /\ fst (tailor_resume self resume_data text w) = Raise e
  /\ fst (generate_resume self text w) = Raise e.
Proof.
  intros Hg Hnb. pose proof (not_blank_past_check text Hnb) as Ht.
  split; [|split; [|split]].
  - intros E. unfold parse_resume, bind at 1.
    rewrite (run_read_only _ w (extract_resume_text_read_only file_path)), E, Ht.
    unfold bind. by run_client Hg.
  - unfold polish_resume, bind. by run_client Hg.
  - unfold tailor_resume. rewrite Ht. unfold bind at 1. by run_client Hg.
  - unfold generate_resume. rewrite Ht. unfold bind. by run_client Hg.
Qed.

(** X5. The two clients on a reply the JSON library rejects, and the
    messages-style client on a reply without any content block: after
    one logged call [generate_json] raises the library's own error in
    the first case and an [IndexError] in the second (there is no
    fallback to the empty object on that client). *)
Theorem generate_json_failures
    (cfg : AIConfig) (prompt : pystr) (sys : option pystr) (temp : N)
    (max_tokens : Z) (name : pystr) (w : world) (e : exn) :
  get_model cfg w = (Ok name, w) ->
  (forall t rest, (forall r, openai_create L r = Ok (Some t :: rest)) ->
     truthy t = true -> json_loads L t = Raise e ->
     exists c, OpenAIClient_generate_json cfg prompt sys temp max_tokens w
               = (Raise e, log_call c w))
  /\ (forall t rest, (forall r, anthropic_create L r = Ok (TextBlock t :: rest)) ->
        json_loads L (strip_code_fences t) = Raise e ->
        exists c, AnthropicClient_generate_json cfg prompt sys temp max_tokens w
                  = (Raise e, log_call c w))
  /\ ((forall r, anthropic_create L r = Ok []) ->
        exists c, AnthropicClient_generate_json cfg prompt sys temp max_tokens w
                  = (Raise (Exn IndexError (lit "list index out of range")), log_call c w)).
Proof.
  intros Hm. split; [|split].
  - intros t rest Hr Ht Hj. unfold OpenAIClient_generate_json, bind. rewrite Hm.
    unfold chat_completions_create, bind, modify, lift. rewrite Hr. simpl.
    unfold or_else. simpl. rewrite Ht. simpl. rewrite Hj. by eexists.
  - intros t rest Hr Hj. unfold AnthropicClient_generate_json, bind. rewrite Hm.
    unfold messages_create, bind, modify, lift. rewrite Hr. simpl.
    rewrite Hj. by eexists.
  - intros Hr. unfold AnthropicClient_generate_json, bind. rewrite Hm.
    unfold messages_create, bind, modify, lift. rewrite Hr. simpl. by eexists.
Qed.

(** X6. On an object reply, [parse_resume], [polish_resume] and
    [generate_resume] return the reply as it is, with whatever other keys
    it has, when it has the key [cv], and raise their own user error when
    it has not: a [cv] nested under [resume] is not accepted by them. *)
Theorem object_reply_needs_top_level_cv
    (self : AIResumeService) (file_path : Path) (resume_data : pyval)
    (focus : option (list pystr)) (text : pystr) (r : gmap pystr pyval)
    (w : world) :
  (forall prompt sys temp,
     fst (generate_json (client self) prompt sys temp 8192 w) = Ok (PDict r)) ->
  ~ blank text ->
  let outcome (msg : pystr) : result pyval :=
    if bool_decide (is_Some (r !! lit "cv")) then Ok (PDict r)
    else Raise (Exn RenderCVUserError msg) in
  (fst (extract_resume_text file_path w) = Ok text ->
   fst (parse_resume self file_path w) =
     outcome (lit "AI failed to generate valid resume structure. Please try again."))
  /\ fst (polish_resume self resume_data focus w) =
       outcome (lit "AI failed to generate valid polished resume. Please try again.")
  /\ fst (generate_resume self text w) =
       outcome (lit "AI failed to generate valid resume. Please try again.").
Proof.
  intros Hg Hnb outcome. pose proof (not_blank_past_check text Hnb) as Ht.
  assert (Hreq : forall msg w', fst (require_cv msg (PDict r) w') = outcome msg).
  { intros msg w'. unfold require_cv, bind, lift, outcome. simpl.
    by destruct (bool_decide _). }
  split; [|split].
  - intros E. unfold parse_resume, bind at 1.
    rewrite (run_read_only _ w (extract_resume_text_read_only file_path)), E, Ht.
    unfold bind. run_client Hg. apply Hreq.
  - unfold polish_resume, bind. run_client Hg. apply Hreq.
  - unfold generate_resume. rewrite Ht. unfold bind. run_client Hg. apply Hreq.
Qed.

(** X7. On an object reply, [tailor_resume] returns the reply itself
    when it has the key [cv] (also when it has a [resume] beside it), the
    value of [resume] when the reply has no [cv] and that value is an
    object with the key [cv], and raises its user error when the reply
    has neither key or when the object under [resume] has no [cv]: one
    level is unwrapped, never two. *)
Theorem tailor_resume_accepts_two_shapes
    (self : AIResumeService) (resume_data : pyval) (jd : pystr)
    (r : gmap pystr pyval) (w : world) :
  (forall prompt sys temp,
     fst (generate_json (client self) prompt sys temp 8192 w) = Ok (PDict r)) ->
  ~ blank jd ->
  let failed : result pyval :=
    Raise (Exn RenderCVUserError
      (lit "AI failed to generate valid tailored resume. Please try again.")) in
  (is_Some (r !! lit "cv") ->
     fst (tailor_resume self resume_data jd w) = Ok (PDict r))
  /\ (forall inner, r !! lit "cv" = None -> r !! lit "resume" = Some (PDict inner) ->
        fst (tailor_resume self resume_data jd w)
          = if bool_decide (is_Some (inner !! lit "cv")) then Ok (PDict inner) else failed)
  /\ (r !! lit "cv" = None -> r !! lit "resume" = None ->
        fst (tailor_resume self resume_data jd w) = failed).
Proof.
  intros Hg Hnb failed. pose proof (not_blank_past_check jd Hnb) as Ht.
  split; [|split].
  - intros Hcv. unfold tailor_resume. rewrite Ht. unfold bind at 1. run_client Hg.
    unfold bind, lift. simpl. by rewrite bool_decide_eq_true_2.
  - intros inner Hcv Hres. unfold tailor_resume. rewrite Ht. unfold bind at 1.
    run_client Hg. unfold bind, lift. simpl.
    rewrite bool_decide_eq_false_2 by (rewrite Hcv; by intros [? ?]). simpl.
    rewrite bool_decide_eq_true_2 by (by rewrite Hres). rewrite Hres. simpl.
    by destruct (bool_decide _).
  - intros Hcv Hres. unfold tailor_resume. rewrite Ht. unfold bind at 1.
    run_client Hg. unfold bind, lift. simpl.
    rewrite bool_decide_eq_false_2 by (rewrite Hcv; by intros [? ?]). simpl.
    by rewrite bool_decide_eq_false_2 by (rewrite Hres; by intros [? ?]).
Qed.

(** *** Failures of the extractor and of the loader *)

Lemma user_error_only {A} msg : raises_only_user_errors (@user_error A msg).
Proof. intros w e. unfold user_error, raise. simpl. by intros [= <-]. Qed.

Lemma ret_never_raises {A} (a : A) : raises_only_user_errors (ret a).
Proof. intros w e. done. Qed.

Lemma caught_only_user_errors {A} (m : M A) h :
  (forall e, raises_only_user_errors (h e)) -> raises_only_user_errors (try_except m h).
Proof.
  intros Hh w e. unfold try_except.
  destruct (m w) as [[a|e0] w1]; [done|]. apply Hh.
Qed.

Lemma extract_text_from_pdf_only_user_errors p :
  raises_only_user_errors (extract_text_from_pdf p).
Proof.
  unfold extract_text_from_pdf. destruct (pypdf_pages L); [|apply user_error_only].
  apply caught_only_user_errors. intros e. apply user_error_only.
Qed.

Lemma extract_text_from_docx_only_user_errors p :
  raises_only_user_errors (extract_text_from_docx p).
Proof.
  unfold extract_text_from_docx. destruct (docx_Document L); [|apply user_error_only].
  apply caught_only_user_errors. intros e. apply user_error_only.
Qed.

Lemma extract_text_from_txt_only_user_errors p :
  raises_only_user_errors (extract_text_from_txt p).
Proof.
  unfold extract_text_from_txt. apply caught_only_user_errors. intros e.
  destruct (exn_cls e); try apply user_error_only.
  apply caught_only_user_errors. intros e'. apply user_error_only.
Qed.

(** X8. The failures of the text extraction.  The existence test comes
    first and is outside every handler: on a path the file system does
    not hold, an [OSError] of [os.stat] that [Path.exists] lets through
    leaves the extraction as it is.  Every other failure is a user error:
    a missing file, an unsupported suffix, a missing package, a file that
    cannot be read or decoded and an exception of a document library are
    all raised as [RenderCVUserError].  Extraction changes nothing in the
    world. *)
Theorem extract_resume_text_failures (p : Path) :
  (forall w e, fst (extract_resume_text p w) = Raise e ->
     exn_cls e = RenderCVUserError
     \/ (fs w !! path_str p = None
         /\ exists msg, stat_error L (path_str p) = Some msg /\ e = Exn OSError msg))
  /\ (forall w msg, fs w !! path_str p = None ->
        stat_error L (path_str p) = Some msg ->
        fst (extract_resume_text p w) = Raise (Exn OSError msg))
  /\ (forall w e, is_Some (fs w !! path_str p) ->
        fst (extract_resume_text p w) = Raise e -> exn_cls e = RenderCVUserError)
  /\ read_only (extract_resume_text p).
Proof.
  assert (Hdispatch : forall w e, is_Some (fs w !! path_str p) ->
            fst (extract_resume_text p w) = Raise e -> exn_cls e = RenderCVUserError).
  { intros w e Hf. rewrite extract_resume_text_dispatch by done. simpl.
    repeat case_bool_decide.
    - apply extract_text_from_pdf_only_user_errors.
    - apply extract_text_from_docx_only_user_errors.
    - apply extract_text_from_txt_only_user_errors.
    - simpl. by intros [= <-]. }
  split; [|split; [|split; [exact Hdispatch|apply extract_resume_text_read_only]]].
  - intros w e. destruct (fs w !! path_str p) as [n|] eqn:Hf.
    { intros H. left. apply (Hdispatch w); [by rewrite Hf|done]. }
    destruct (stat_error L (path_str p)) as [msg|] eqn:Hs.
    + unfold extract_resume_text, bind.
      rewrite (path_exists_stat_error p msg) by done. simpl.
      intros [= <-]. right. eauto.
    + rewrite extract_resume_text_not_found by done. simpl.
      intros [= <-]. by left.
  - intros w msg Hf Hs. unfold extract_resume_text, bind.
    by rewrite (path_exists_stat_error p msg).
Qed.

Lemma load_resume_yaml_read_only p : read_only (load_resume_yaml p).
Proof. unfold load_resume_yaml. ro. Qed.

Lemma load_resume_yaml_not_found p w :
  fs w !! path_str p = None -> stat_error L (path_str p) = None ->
  load_resume_yaml p w =
    (Raise (Exn RenderCVUserError (lit "File not found: " ++ path_str p)), w).
Proof.
  intros H Hs. unfold load_resume_yaml, bind. by rewrite path_exists_absent.
Qed.

(** X9. The failures of loading, which changes nothing.  The existence
    test is outside the handler: on a path the file system does not hold,
    an [OSError] of [os.stat] that [Path.exists] lets through leaves
    [load_resume_yaml] as it is.  Every other failure is a user error: a
    missing path is [File not found], a file whose root is not a mapping
    is [Invalid YAML structure], and a failure of the YAML library or of
    the read is [Failed to load YAML file] followed by its message. *)
Theorem load_resume_yaml_failures (p : Path) (w : world) :
  (forall e, fst (load_resume_yaml p w) = Raise e ->
     exn_cls e = RenderCVUserError
     \/ (fs w !! path_str p = None
         /\ exists msg, stat_error L (path_str p) = Some msg /\ e = Exn OSError msg))
  /\ (forall msg, fs w !! path_str p = None -> stat_error L (path_str p) = Some msg ->
        fst (load_resume_yaml p w) = Raise (Exn OSError msg))
  /\ read_only (load_resume_yaml p)
  /\ (fs w !! path_str p = None -> stat_error L (path_str p) = None ->
      fst (load_resume_yaml p w)
        = Raise (Exn RenderCVUserError (lit "File not found: " ++ path_str p)))
  /\ (forall b v, fs w !! path_str p = Some (FFile b) -> yaml_load L b = Ok v ->
        (forall d, v <> PDict d) ->
        fst (load_resume_yaml p w)
          = Raise (Exn RenderCVUserError (lit "Invalid YAML structure in " ++ path_str p)))
  /\ (forall b e, fs w !! path_str p = Some (FFile b) -> yaml_load L b = Raise e ->
        exn_cls e <> RenderCVUserError ->
        fst (load_resume_yaml p w)
          = Raise (Exn RenderCVUserError (lit "Failed to load YAML file: " ++ exn_str e))).
Proof.
  split; [|split; [|split; [apply load_resume_yaml_read_only|split; [|split]]]].
  - intros e. destruct (fs w !! path_str p) as [n|] eqn:Hf.
    + intros H. left. revert H. unfold load_resume_yaml, bind at 1.
      rewrite path_exists_present by (by rewrite Hf). simpl.
      unfold try_except. destruct (bind _ _ w) as [[a|e0] w1]; [done|].
      destruct (is_user_error e0) eqn:E.
      * unfold raise. simpl. intros [= <-]. unfold is_user_error in E.
        by destruct (exn_cls e0).
      * simpl. by intros [= <-].
    + destruct (stat_error L (path_str p)) as [msg|] eqn:Hs.
      * unfold load_resume_yaml, bind.
        rewrite (path_exists_stat_error p msg) by done. simpl.
        intros [= <-]. right. eauto.
      * rewrite load_resume_yaml_not_found by done. simpl.
        intros [= <-]. by left.
  - intros msg Hf Hs. unfold load_resume_yaml, bind.
    by rewrite (path_exists_stat_error p msg).
  - intros H Hs. by rewrite load_resume_yaml_not_found.
  - intros b v Hf Hv Hd. rewrite (load_resume_yaml_on_file p b w Hf), Hv. simpl.
    destruct v; try done. by destruct (Hd d).
  - intros b e Hf He Hc. rewrite (load_resume_yaml_on_file p b w Hf), He. simpl.
    unfold is_user_error. by destruct (exn_cls e).
Qed.

(** X10. [read_job_description] on an argument that names an existing
    file: the text of the file when it can be read as UTF-8, and the
    argument itself, taken as the description, when the read fails (the
    failure is swallowed, and there is no second read in another
    encoding).  An argument that names a directory is taken as the
    description too.  Nothing in the world changes. *)
Theorem read_job_description_on_a_path (source : pystr) (w : world) (node : fsnode) :
  fs w !! path_str (pathlib_Path L source) = Some node ->
  read_job_description source w =
    (Ok match node with
        | FFile b => match read_utf8 L b with Ok t => t | Raise _ => source end
        | FDir => source
        end, w).
Proof.
  intros Hf. unfold read_job_description, bind at 1.
  rewrite path_exists_present by (by rewrite Hf).
  unfold bind, path_is_file, gets. rewrite Hf.
  destruct node as [b|]; [|done].
  unfold try_except, read_text, read_bytes, bind, gets, lift. rewrite Hf. simpl.
  by destruct (read_utf8 L b).
Qed.

(** X11. A text file that is not valid UTF-8 is read again as Latin-1:
    the result is what the Latin-1 read gives, and only a failure of that
    second read is reported.  Any other failure of the first read is
    reported at once, without a second read. *)
Theorem text_file_falls_back_to_latin1 (p : Path) (b : list N) (e : exn) (w : world) :
  fs w !! path_str p = Some (FFile b) ->
  read_utf8 L b = Raise e ->
  extract_text_from_txt p w =
    (match exn_cls e with
     | UnicodeDecodeError =>
         match read_latin1 L b with
         | Ok t => Ok t
         | Raise e' =>
             Raise (Exn RenderCVUserError (lit "Failed to read text file: " ++ exn_str e'))
         end
     | _ => Raise (Exn RenderCVUserError (lit "Failed to read text file: " ++ exn_str e))
     end, w).
Proof.
  intros Hf Hr. unfold extract_text_from_txt, try_except at 1, read_text at 1.
  unfold read_bytes, bind, gets, lift. rewrite Hf. simpl. rewrite Hr.
  destruct (exn_cls e); try done.
  unfold try_except, read_text, read_bytes, bind, gets, lift. rewrite Hf. simpl.
  by destruct (read_latin1 L b).
Qed.

(** *** Documents without text *)

Lemma blank_join sep parts :
  blank sep -> Forall blank parts -> blank (py_join sep parts).
Proof.
  intros Hs. induction 1 as [|x l Hx Hl IH]; [constructor|].
  simpl. destruct l as [|y l']; [done|].
  apply blank_app; [done|]. by apply blank_app.
Qed.

Lemma blank_line_blank : blank blank_line.
Proof. by repeat constructor. Qed.

Lemma filter_truthy_blank (l : list pystr) :
  Forall blank l -> Forall blank (filter (fun text => truthy text = true) l).
Proof.
  induction 1 as [|x l Hx Hl IH]; [constructor|].
  rewrite filter_cons. case_decide; [by constructor|done].
Qed.

Lemma filter_nonblank_of_blank (l : list pystr) :
  Forall blank l -> filter (fun text => truthy (py_strip text) = true) l = [].
Proof.
  induction 1 as [|x l Hx Hl IH]; [done|].
  rewrite filter_cons. case_decide as E; [|done].
  by rewrite (py_strip_blank x Hx) in E.
Qed.

Lemma row_text_of_blank cells : Forall blank cells -> row_text cells = [].
Proof. intros H. unfold row_text. by rewrite filter_nonblank_of_blank. Qed.

Lemma rows_of_blank (rows : list (list pystr)) :
  Forall (Forall blank) rows ->
  filter (fun r => bool_decide (r <> [])) (map row_text rows) = [].
Proof.
  induction 1 as [|r rows Hr Hrows IH]; [done|].
  rewrite map_cons, (row_text_of_blank r Hr).
  rewrite filter_cons_False; [exact IH|].
  intros E. by apply bool_decide_unpack in E.
Qed.

(** X12. A PDF all of whose pages give blank text, and a DOCX all of
    whose paragraphs and table cells are blank (an image-only document),
    make [parse_resume] raise the could-not-extract-text user error; the
    world is unchanged, so the provider is not called. *)
Theorem document_without_text_is_rejected
    (self : AIResumeService) (p : Path) (b : list N) (w : world) :
  fs w !! path_str p = Some (FFile b) ->
  (py_lower (path_suffix p) = lit ".pdf"
   /\ exists reader pages,
        pypdf_pages L = Some reader /\ reader b = Ok pages /\ Forall blank pages)
  \/ (py_lower (path_suffix p) = lit ".docx"
      /\ exists open_document doc,
           docx_Document L = Some open_document /\ open_document b = Ok doc
           /\ Forall blank (paragraphs doc)
           /\ Forall (Forall (Forall blank)) (tables doc)) ->
  parse_resume self p w =
    (Raise (Exn RenderCVUserError
       (lit "Could not extract any text from " ++ path_str p
        ++ lit ". The file may be image-based or corrupted.")), w).
Proof.
  intros Hf Hdoc.
  assert (exists text, extract_resume_text p w = (Ok text, w) /\ blank text)
    as (text & Hx & Hb).
  { rewrite extract_resume_text_dispatch by (by rewrite Hf).
    destruct Hdoc as [(Hs & reader & pages & Hr & Hp & Hbl)
                     |(Hs & od & doc & Hr & Hp & Hpar & Htab)].
    - cbv zeta. rewrite Hs. rewrite bool_decide_eq_true_2 by done.
      unfold extract_text_from_pdf. rewrite Hr.
      unfold try_except, read_bytes, bind, gets, lift. rewrite Hf. simpl. rewrite Hp.
      eexists. split; [done|].
      apply blank_join; [apply blank_line_blank|by apply filter_truthy_blank].
    - cbv zeta. rewrite Hs. rewrite bool_decide_eq_false_2 by done.
      rewrite bool_decide_eq_true_2 by done.
      unfold extract_text_from_docx. rewrite Hr.
      unfold try_except, read_bytes, bind, gets, lift. rewrite Hf. simpl. rewrite Hp.
      eexists. split; [done|].
      rewrite (filter_nonblank_of_blank _ Hpar).
      rewrite rows_of_blank; [constructor|]. by apply Forall_concat. }
  unfold parse_resume, bind. rewrite Hx. by rewrite (falsy_strip_blank text Hb).
Qed.

(** *** Defaults and carried-over metadata *)

Lemma default_item_present key blk d :
  is_Some (d !! key) -> default_item key blk d = d.
Proof. intros [x Hx]. unfold default_item. by rewrite Hx. Qed.

Lemma with_defaults_again t1 l1 t2 l2 d :
  with_defaults t2 l2 (with_defaults t1 l1 d) = with_defaults t1 l1 d.
Proof.
  unfold with_defaults at 1.
  rewrite (default_item_present (lit "design")) by (by rewrite with_defaults_design).
  apply default_item_present. by rewrite with_defaults_locale.
Qed.

(** X13. The defaults of the first save stay: because [save_resume_yaml]
    puts them into the caller's dictionary, saving the same dictionary
    again with another theme and locale writes the document of the first
    save, with the first theme and locale. *)
Theorem second_save_keeps_first_defaults
    (r : positive) (d : gmap pystr pyval) (p1 p2 : Path)
    (t1 l1 t2 l2 : pystr) (w : world) :
  heap w !! r = Some (PDict d) ->
  fs w !! path_str p1 <> Some FDir ->
  fs w !! path_str p2 <> Some FDir ->
  exists w',
    (save_resume_yaml r p1 t1 l1 >> save_resume_yaml r p2 t2 l2) w = (Ok tt, w')
    /\ fs w' !! path_str p2 = Some (FFile (yaml_dump L (PDict (with_defaults t1 l1 d))))
    /\ heap w' !! r = Some (PDict (with_defaults t1 l1 d)).
Proof.
  intros H H1 H2. unfold bind.
  rewrite (save_resume_yaml_dict r d p1 t1 l1 w H), write_bytes_file by done.
  set (w1 := with_file p1 _ _).
  assert (Hh : heap w1 !! r = Some (PDict (with_defaults t1 l1 d))).
  { unfold w1, with_file. simpl. apply lookup_insert_eq. }
  rewrite (save_resume_yaml_dict r _ p2 t2 l2 w1 Hh), with_defaults_again.
  rewrite write_bytes_file.
  - eexists. split; [done|]. split.
    + unfold with_file. simpl. apply lookup_insert_eq.
    + unfold with_file. simpl. apply lookup_insert_eq.
  - unfold w1, with_file, with_obj. simpl.
    destruct (decide (path_str p1 = path_str p2)) as [E|E].
    + rewrite E, lookup_insert_eq. done.
    + by rewrite lookup_insert_ne.
Qed.

Lemma preserved_item_lookup old key d k :
  preserved_item old key d !! k =
    if bool_decide (k = key)
    then match d !! key with Some x => Some x | None => old !! key end
    else d !! k.
Proof.
  unfold preserved_item. destruct (old !! key) as [x|] eqn:Ho.
  - rewrite default_item_lookup. case_bool_decide; [|done]. by destruct (d !! key).
  - case_bool_decide as E; [|done]. subst. by destruct (d !! key).
Qed.

Lemma metadata_keys_spec k :
  k ∈ metadata_keys <-> k = lit "design" \/ k = lit "locale" \/ k = lit "settings".
Proof.
  unfold metadata_keys. rewrite !elem_of_cons, elem_of_nil. tauto.
Qed.

Lemma carried_over_lookup old new k :
  carried_over old new !! k =
    match new !! k with
    | Some x => Some x
    | None => if bool_decide (k ∈ metadata_keys) then old !! k else None
    end.
Proof.
  destruct (new !! k) as [x|] eqn:Hn; [by apply carried_over_keeps|].
  case_bool_decide as Hk.
  - destruct (old !! k) as [y|] eqn:Ho; [by apply carried_over_copies|].
    unfold carried_over.
    rewrite (preserved_item_lookup old (lit "settings") _ k).
    rewrite (preserved_item_lookup old (lit "locale") _ (lit "settings")).
    rewrite (preserved_item_lookup old (lit "design") _ (lit "settings")).
    rewrite (preserved_item_lookup old (lit "locale") _ k).
    rewrite (preserved_item_lookup old (lit "design") _ (lit "locale")).
    rewrite (preserved_item_lookup old (lit "design") _ k).
    rewrite (bool_decide_eq_false_2 (lit "settings" = lit "locale")) by done.
    rewrite (bool_decide_eq_false_2 (lit "settings" = lit "design")) by done.
    rewrite (bool_decide_eq_false_2 (lit "locale" = lit "design")) by done.
    apply metadata_keys_spec in Hk as [-> | [-> | ->]].
    + rewrite (bool_decide_eq_false_2 (lit "design" = lit "settings")) by done.
      rewrite (bool_decide_eq_false_2 (lit "design" = lit "locale")) by done.
      rewrite bool_decide_eq_true_2 by done. by rewrite Hn.
    + rewrite (bool_decide_eq_false_2 (lit "locale" = lit "settings")) by done.
      rewrite bool_decide_eq_true_2 by done. by rewrite Hn.
    + rewrite bool_decide_eq_true_2 by done. by rewrite Hn.
  - unfold carried_over.
    rewrite !preserved_item_other; [done|..];
      intros ->; apply Hk, metadata_keys_spec; auto.
Qed.

Lemma saved_item_spec theme locale old new k :
  with_defaults theme locale (carried_over old new) !! k
    = saved_item theme locale old new k.
Proof.
  unfold saved_item.
  destruct (decide (k = lit "design")) as [->|Hd].
  { rewrite with_defaults_design, carried_over_lookup.
    destruct (new !! lit "design"); [done|].
    rewrite bool_decide_eq_true_2 by (apply metadata_keys_spec; auto).
    by destruct (old !! lit "design"). }
  destruct (decide (k = lit "locale")) as [->|Hl].
  { rewrite with_defaults_locale, carried_over_lookup.
    destruct (new !! lit "locale"); [done|].
    rewrite bool_decide_eq_true_2 by (apply metadata_keys_spec; auto).
    by destruct (old !! lit "locale"). }
  rewrite with_defaults_other, carried_over_lookup by done.
  destruct (new !! k); [done|]. case_bool_decide; [|done].
  destruct (old !! k); [done|]. by rewrite !bool_decide_eq_false_2.
Qed.

(** X14. The document the polish and the tailor flows save, key by key,
    whichever output is chosen (a given path, the default name, or the
    input itself for an in-place polish): the value of the new document
    when it has the key; else, for [design], [locale] and [settings]
    only, the value of the old document; else, for [design] and [locale],
    the block of the classic theme and of the English locale.  No other
    key of the old document (its [cv] in particular) gets into the saved
    one. *)
Theorem flows_save_new_then_old_then_default
    (input : Path) (output : option Path) (in_place : bool) (job : pystr)
    (focus : option (list pystr))
    (pr key m : option pystr) (svc : AIResumeService)
    (old new : gmap pystr pyval) (jd : pystr) (w w1 w2 w3 : world) :
  load_resume_yaml input w = (Ok old, w1) ->
  AIResumeService_init pr key m w1 = (Ok svc, w2) ->
  (let out :=
     if in_place then input
     else default (Path_of_name (path_stem input ++ lit "_polished.yaml")) output in
   polish_resume svc (PDict old) focus w2 = (Ok (PDict new), w3) ->
   fs w3 !! path_str out <> Some FDir ->
   exists saved w',
     ai_polish input output focus in_place pr key m w = (Ok tt, w')
     /\ fs w' !! path_str out = Some (FFile (yaml_dump L (PDict saved)))
     /\ forall k, saved !! k = saved_item (lit "classic") (lit "english") old new k)
  /\ (let out :=
        default (Path_of_name (path_stem input ++ lit "_tailored.yaml")) output in
      fst (read_job_description job w) = Ok jd ->
      tailor_resume svc (PDict old) jd w2 = (Ok (PDict new), w3) ->
      fs w3 !! path_str out <> Some FDir ->
      exists saved w',
        ai_tailor input job output pr key m w = (Ok tt, w')
        /\ fs w' !! path_str out = Some (FFile (yaml_dump L (PDict saved)))
        /\ forall k, saved !! k = saved_item (lit "classic") (lit "english") old new k).
Proof.
  intros Hl Hs. split.
  - intros out Hpol Hp.
    rewrite (ai_polish_finish _ _ _ _ _ _ _ _ _ _ _ _ _ _ Hl Hs Hpol).
    assert (E : (if in_place then input
                 else match output with
                      | None => Path_of_name (path_stem input ++ lit "_polished.yaml")
                      | Some o => o
                      end) = out) by (unfold out; by destruct in_place, output).
    rewrite E.
    destruct (finish_flow_dict old new out w3 Hp) as (w' & Hrun & Hfile).
    eexists _, w'. split; [exact Hrun|]. split; [exact Hfile|].
    intros k. apply saved_item_spec.
  - intros out Hj Htl Hp.
    rewrite (ai_tailor_finish _ _ _ _ _ _ _ _ _ _ _ _ _ _ Hj Hl Hs Htl).
    assert (E : match output with
                | None => Path_of_name (path_stem input ++ lit "_tailored.yaml")
                | Some o => o
                end = out) by (unfold out; by destruct output).
    rewrite E.
    destruct (finish_flow_dict old new out w3 Hp) as (w' & Hrun & Hfile).
    eexists _, w'. split; [exact Hrun|]. split; [exact Hfile|].
    intros k. apply saved_item_spec.
Qed.

(** *** Names of the default output files *)

Lemma split_last_dot_app s b a : split_last_dot s = Some (b, a) -> s = b ++ 46 :: a.
Proof.
  revert b a. induction s as [|c s IH]; intros b a; [done|]. simpl.
  destruct (split_last_dot s) as [[b' a']|].
  - intros [= <- <-]. simpl. f_equal. by apply IH.
  - destruct (c =? 46) eqn:E; [|done]. intros [= <- <-].
    apply N.eqb_eq in E. by subst.
Qed.

Lemma path_stem_suffix p : path_stem p ++ path_suffix p = path_name p.
Proof.
  unfold path_stem, path_suffix.
  destruct (split_last_dot (path_name p)) as [[b a]|] eqn:E; [|apply app_nil_r].
  destruct (truthy b && truthy a); [|apply app_nil_r].
  symmetry. by apply split_last_dot_app.
Qed.

Lemma path_suffix_shape p : path_suffix p = [] \/ exists a, path_suffix p = 46 :: a.
Proof.
  unfold path_suffix. destruct (split_last_dot (path_name p)) as [[b a]|]; [|by left].
  destruct (truthy b && truthy a); [right; by eexists|by left].
Qed.

Lemma stem_with_tail_is_another_name p c tail :
  c <> 46 -> path_stem p ++ c :: tail <> path_name p.
Proof.
  intros Hc E. rewrite <- (path_stem_suffix p) in E.
  apply app_inv_head in E.
  destruct (path_suffix_shape p) as [H|[a H]]; rewrite H in E; [done|].
  by injection E.
Qed.

(** X15. The default output of the parse, polish and tailor commands
    (the stem of the input followed by [_CV.yaml], [_polished.yaml] or
    [_tailored.yaml]) never has the file name of the input, whatever that
    name is: without an explicit output the input is not the file
    written. *)
Theorem default_output_is_not_the_input (input : Path) :
  path_name (Path_of_name (path_stem input ++ lit "_CV.yaml")) <> path_name input
  /\ path_name (Path_of_name (path_stem input ++ lit "_polished.yaml")) <> path_name input
  /\ path_name (Path_of_name (path_stem input ++ lit "_tailored.yaml")) <> path_name input.
Proof.
  split; [|split]; apply (stem_with_tail_is_another_name input 95); done.
Qed.

(** *** What the commands write *)




Lemma keeps_files_set_heap f : keeps_files (modify (fun w => set_heap (f w) w)).
Proof. done. Qed.







Lemma keeps_files_writes {A} q (m : M A) : keeps_files m -> writes_at_most q m.
Proof. intros H w. left. apply H. Qed.





Lemma gather_user_info_read_only name info interactive stdin :
  read_only (gather_user_info name info interactive stdin).
Proof.
  unfold gather_user_info. destruct interactive.
  - destruct (gather_sections _ _ _) as [[t r]|]; ro.
  - destruct (truthy_opt info); [|ro].
    apply read_only_bind; [apply read_job_description_read_only|]. intros t. ro.
Qed.


Lemma save_new_object doc out theme locale w :
  fs w !! path_str out <> Some FDir ->
  exists w',
    (let* r := alloc (PDict doc) in save_resume_yaml r out theme locale) w = (Ok tt, w')
    /\ fs w' !! path_str out
       = Some (FFile (yaml_dump L (PDict (with_defaults theme locale doc)))).
Proof.
  intros Hp. rewrite (bind_ok _ _ _ _ _ (alloc_fresh (PDict doc) w)).
  rewrite (save_resume_yaml_dict _ doc out theme locale _ (heap_with_obj _ _ w)).
  rewrite with_obj_twice, write_bytes_file by done.
  eexists. split; [done|]. unfold with_file. simpl. apply lookup_insert_eq.
Qed.

(** X17. What [ai_parse] and [ai_generate] save, to a given path or to
    the default one ([<stem of the input>_CV.yaml], and the name with
    underscores for spaces followed by [_CV.yaml]), is the reply of the
    service with the defaults: a [design] or a [locale] that the reply
    carries is kept, and the theme and the locale given on the command
    line are used only for the block the reply lacks; every other key is
    the reply's. *)
Theorem parse_and_generate_save_reply_with_defaults
    (input : Path) (output : option Path) (name theme locale : pystr)
    (info : option pystr)
    (interactive : bool) (stdin : list pystr) (pr key m : option pystr)
    (svc : AIResumeService) (doc : gmap pystr pyval) (text : pystr)
    (w w1 w2 : world) :
  AIResumeService_init pr key m w = (Ok svc, w1) ->
  exists saved,
    saved !! lit "design" = Some (default (design_block theme) (doc !! lit "design"))
    /\ saved !! lit "locale" = Some (default (locale_block locale) (doc !! lit "locale"))
    /\ (forall k, k <> lit "design" -> k <> lit "locale" -> saved !! k = doc !! k)
    /\ (let out := default (Path_of_name (path_stem input ++ lit "_CV.yaml")) output in
        parse_resume svc input w1 = (Ok (PDict doc), w2) ->
        fs w2 !! path_str out <> Some FDir ->
        exists w',
          ai_parse input output theme locale pr key m w = (Ok tt, w')
          /\ fs w' !! path_str out = Some (FFile (yaml_dump L (PDict saved))))
    /\ (let out :=
          default (pathlib_Path L (spaces_to_underscores name ++ lit "_CV.yaml"))
            output in
        fst (gather_user_info name info interactive stdin w) = Ok text ->
        generate_resume svc text w1 = (Ok (PDict doc), w2) ->
        fs w2 !! path_str out <> Some FDir ->
        exists w',
          ai_generate name info interactive output theme locale pr key m stdin w
            = (Ok tt, w')
          /\ fs w' !! path_str out = Some (FFile (yaml_dump L (PDict saved)))).
Proof.
  intros Hs. exists (with_defaults theme locale doc).
  split; [apply with_defaults_design|]. split; [apply with_defaults_locale|].
  split; [intros k; apply with_defaults_other|]. split.
  - intros out Hparse Hp. unfold ai_parse.
    rewrite (bind_ok _ _ _ _ _ Hs), (bind_ok _ _ _ _ _ Hparse).
    unfold out in *. destruct output; by apply save_new_object.
  - intros out Hg Hgen Hp. unfold ai_generate.
    assert (Hg' : gather_user_info name info interactive stdin w = (Ok text, w)).
    { rewrite (run_read_only _ w (gather_user_info_read_only _ _ _ _)). by rewrite Hg. }
    rewrite (bind_ok _ _ _ _ _ Hg'), (bind_ok _ _ _ _ _ Hs), (bind_ok _ _ _ _ _ Hgen).
    unfold out in *. destruct output; by apply save_new_object.
Qed.

(** *** The text gathered by the generate command *)

Lemma gather_sections_extends titles u stdin t rest :
  gather_sections titles u stdin = Some (t, rest) -> exists x, t = u ++ x.
Proof.
  revert u stdin. induction titles as [|title titles IH]; intros u stdin; simpl.
  - intros [= <- <-]. exists []. by rewrite app_nil_r.
  - destruct (read_block [] stdin) as [[lines rest']|]; [|done].
    intros H. apply IH in H as [x ->].
    destruct (truthy _); [|by eexists].
    eexists. by rewrite <- app_assoc.
Qed.

Lemma starts_with_name_not_blank name x : ~ blank ((lit "Name: " ++ name ++ blank_line) ++ x).
Proof. intros B. inversion B as [|c r Hc Hr]. vm_compute in Hc. discriminate Hc. Qed.

(** X18. The text [ai_generate] gathers always begins with the line
    [Name: <name>] and a blank line, in each of its three modes, so it is
    never blank, even for an empty name: the empty-information check of
    [generate_resume] cannot stop this command.  Gathering changes
    nothing in the world. *)
Theorem gathered_user_info_is_never_blank
    (name : pystr) (info : option pystr) (interactive : bool)
    (stdin : list pystr) (text : pystr) (w w' : world) :
  gather_user_info name info interactive stdin w = (Ok text, w') ->
  w' = w
  /\ (exists rest, text = (lit "Name: " ++ name ++ blank_line) ++ rest)
  /\ ~ blank text.
Proof.
  intros H.
  assert (w' = w) as ->.
  { pose proof (gather_user_info_read_only name info interactive stdin w) as E.
    by rewrite H in E. }
  split; [done|].
  assert (exists rest, text = (lit "Name: " ++ name ++ blank_line) ++ rest) as [rest ->].
  { revert H. unfold gather_user_info. destruct interactive.
    - destruct (gather_sections _ _ _) as [[t r]|] eqn:E; [|done].
      intros [= <-]. by apply gather_sections_extends in E.
    - destruct (truthy_opt info).
      + unfold bind. destruct (read_job_description _ w) as [[t|e] w1]; [|done].
        intros [= <- _]. by eexists.
      + intros [= <-]. by eexists. }
  split; [by eexists|apply starts_with_name_not_blank].
Qed.

Lemma last_snoc_default (l : list pystr) x d : List.last (l ++ [x]) d = x.
Proof. apply last_last. Qed.

Lemma read_block_from acc body rest :
  single_spaced (bool_decide (List.last acc [0] = [])) body = true ->
  read_block acc (body ++ [] :: [] :: rest) = Some (acc ++ body ++ [[]], rest).
Proof.
  revert acc. induction body as [|line body IH]; intros acc; simpl.
  - intros H. apply negb_true_iff in H. rewrite H. simpl.
    rewrite last_snoc_default. by rewrite bool_decide_eq_true_2.
  - case_bool_decide as El.
    + subst line. rewrite andb_true_iff, negb_true_iff. intros [Hp Hb].
      rewrite Hp. simpl. rewrite (IH (acc ++ [[]])).
      * by rewrite <- app_assoc.
      * rewrite last_snoc_default. by rewrite bool_decide_eq_true_2.
    + intros Hb. simpl. rewrite (IH (acc ++ [line])).
      * by rewrite <- app_assoc.
      * rewrite last_snoc_default. by rewrite bool_decide_eq_false_2.
Qed.

(** X19. One answer of the interactive mode ends at the first empty
    line that follows an empty line: for lines among which no empty line
    follows another and whose last is not empty, typed before two empty
    lines, the block read is those lines and one empty line, and the
    console is left after the second empty line.  Single empty lines
    inside the answer are kept. *)
Theorem read_block_ends_at_double_blank (body rest : list pystr) :
  single_spaced false body = true ->
  read_block [] (body ++ [] :: [] :: rest) = Some (body ++ [[]], rest).
Proof. intros H. by apply (read_block_from [] body rest). Qed.

(** X20. A section answered with two empty lines adds nothing: when
    every section is skipped that way, the gathered text is the text
    before the questions and the console is left after the answers. *)
Theorem skipped_sections_add_nothing (titles : list pystr) (u : pystr) (rest : list pystr) :
  gather_sections titles u (concat (map (fun _ => [[]; []]) titles) ++ rest)
    = Some (u, rest).
Proof.
  induction titles as [|title titles IH]; [done|].
  simpl. exact IH.
Qed.

(** The console runs out before an answer is finished: [input()] fails. *)
Lemma read_block_unfinished acc body :
  Forall (fun line => line <> []) body -> read_block acc body = None.
Proof.
  intros H. revert acc. induction H as [|line body Hl _ IH]; intros acc; [done|].
  simpl. rewrite bool_decide_eq_false_2 by done. simpl. apply IH.
Qed.

(** *** Fences on one side only *)

Lemma blank_then_json_is_not_a_tag bw c r rest :
  blank bw -> json_first c = true ->
  py_startswith (bw ++ (c :: r) ++ rest) (lit "json") = false.
Proof.
  intros B Hc. destruct (json_first_not_fence c Hc) as [_ Hj].
  destruct bw as [|x bw].
  - apply py_startswith_head_ne. differs Hj.
  - apply py_startswith_head_ne. inversion B as [|? ? Hx _]. intros <-. done.
Qed.

(** X21. The opening and the closing fence are removed independently
    of each other: a JSON text with an opening fence (with or without the
    tag) and no closing one, and a JSON text with a closing fence and no
    opening one, are both extracted to the stripped JSON text. *)
Theorem one_sided_fences_are_removed (fence s w1 w2 w3 : pystr) :
  opening_fence fence -> json_text s = true ->
  blank w1 -> blank w2 -> blank w3 ->
  strip_code_fences (w1 ++ fence ++ w2 ++ s ++ w3) = py_strip s
  /\ strip_code_fences (w1 ++ s ++ w2 ++ lit "```" ++ w3) = py_strip s.
Proof.
  intros Hf H B1 B2 B3. pose proof (json_text_tight s H) as T.
  destruct (json_text_shape s H) as (c & r & r' & e & E1 & E2 & Hc & He).
  destruct (json_first_not_fence c Hc) as [Hq Hj].
  pose proof (json_last_not_fence e He) as Hq'.
  destruct (py_strip_decompose s) as (w & w' & Es & Bw & Bw').
  set (t := py_strip s) in *. split.
  - set (body := (w2 ++ w) ++ t).
    assert (Hbody : py_strip body = t).
    { unfold body. rewrite <- (app_nil_r t) at 1.
      apply py_strip_tight; [done|by apply blank_app|constructor]. }
    assert (Hend : py_endswith body (lit "```") = false).
    { unfold body. rewrite E2, app_assoc.
      apply (py_endswith_last_ne _ e [96; 96] 96). differs Hq'. }
    assert (Ein : w1 ++ fence ++ w2 ++ s ++ w3 = w1 ++ (fence ++ body) ++ (w' ++ w3)).
    { unfold body. rewrite Es at 1. by rewrite <- !app_assoc. }
    assert (Ht : tight (fence ++ body)).
    { split.
      - destruct Hf; by eexists _, _.
      - exists (fence ++ (w2 ++ w) ++ r'), e. split.
        + unfold body. rewrite E2. by rewrite <- !app_assoc.
        + by apply json_last_not_space. }
    unfold strip_code_fences. rewrite Ein.
    rewrite (py_strip_tight _ _ _ Ht B1 (blank_app _ _ Bw' B3)).
    destruct Hf.
    + rewrite py_startswith_app.
      change (slice_from 7 (lit "```json" ++ body)) with body.
      by rewrite Hend.
    + assert (py_startswith (lit "```" ++ body) (lit "```json") = false) as ->.
      { change (py_startswith body (lit "json") = false). unfold body.
        rewrite E1, <- (app_nil_r (c :: r)).
        apply blank_then_json_is_not_a_tag; [by apply blank_app|done]. }
      rewrite py_startswith_app.
      change (slice_from 3 (lit "```" ++ body)) with body.
      by rewrite Hend.
  - set (body := t ++ (w' ++ w2)).
    assert (Hbody : py_strip body = t).
    { unfold body. apply (py_strip_tight [] t); [done|constructor|by apply blank_app]. }
    assert (Ein : w1 ++ s ++ w2 ++ lit "```" ++ w3
                  = (w1 ++ w) ++ (body ++ lit "```") ++ w3).
    { unfold body. rewrite Es at 1. by rewrite <- !app_assoc. }
    assert (Ht : tight (body ++ lit "```")).
    { split.
      - exists c, (r ++ (w' ++ w2) ++ lit "```"). split.
        + unfold body. rewrite E1. by rewrite <- !app_assoc.
        + by apply json_first_not_space.
      - exists (body ++ [96; 96]), 96. split; [|done]. by rewrite <- !app_assoc. }
    unfold strip_code_fences. rewrite Ein.
    rewrite (py_strip_tight _ _ _ Ht (blank_app _ _ B1 Bw) B3).
    assert (py_startswith (body ++ lit "```") (lit "```json") = false) as ->.
    { unfold body. rewrite E1. apply py_startswith_head_ne. differs Hq. }
    assert (py_startswith (body ++ lit "```") (lit "```") = false) as ->.
    { unfold body. rewrite E1. apply py_startswith_head_ne. differs Hq. }
    rewrite py_endswith_app.
    by rewrite (slice_to_minus_app 3 body (lit "```")).
Qed.

End Program.

(** ** Replies with and without code fences *)

(** The messages-style [generate_json] on a reply whose first block is
    the text [t]: [json.loads] of the extracted text, after one logged
    call. *)
Lemma AnthropicClient_generate_json_text
    (L : libs) (cfg : AIConfig) (prompt : pystr) (sys : option pystr)
    (temp : N) (max_tokens : Z) (w : world) (t : pystr) (rest : list block) :
  (forall r, anthropic_create L r = Ok (TextBlock t :: rest)) ->
  AnthropicClient_generate_json L cfg prompt sys temp max_tokens w =
    bind (get_model cfg)
      (fun m w0 =>
         (json_loads L (strip_code_fences t),
          log_call (AnthropicCall (anthropic_kwargs m
            (prompt ++ lit "

Respond with valid JSON only. No explanation or markdown formatting.")
            sys temp max_tokens)) w0)) w.
Proof.
  intros H. unfold AnthropicClient_generate_json, bind.
  destruct (get_model cfg w) as [[m|e] w0]; [|done].
  unfold messages_create, bind, modify, lift. by rewrite H.
Qed.

(** C4. For a JSON text [s], the messages-style [generate_json] hands
    the same text to [json.loads], namely [s] without the white space
    around it, on a reply that is [s] between an opening fence (with or
    without the [json] tag) and a closing fence, with any white space
    around the fences and around [s], as on the reply that is [s] alone.
    Both runs therefore return what [json.loads] makes of that text,
    after the one call to the back end, and so the same object. *)
Theorem fenced_reply_parses_like_bare
    (L1 L2 : libs) (cfg : AIConfig) (prompt : pystr) (sys : option pystr)
    (temp : N) (max_tokens : Z) (w : world)
    (fence s w1 w2 w3 w4 : pystr) (rest1 rest2 : list block) :
  (forall t, json_loads L1 t = json_loads L2 t) ->
  (forall r, anthropic_create L1 r =
     Ok (TextBlock (w1 ++ fence ++ w2 ++ s ++ w3 ++ lit "```" ++ w4) :: rest1)) ->
  (forall r, anthropic_create L2 r = Ok (TextBlock s :: rest2)) ->
  opening_fence fence -> json_text s = true ->
  blank w1 -> blank w2 -> blank w3 -> blank w4 ->
  let parsed :=
    bind (get_model cfg)
      (fun m w0 =>
         (json_loads L2 (py_strip s),
          log_call (AnthropicCall (anthropic_kwargs m
            (prompt ++ lit "

Respond with valid JSON only. No explanation or markdown formatting.")
            sys temp max_tokens)) w0)) w in
  strip_code_fences (w1 ++ fence ++ w2 ++ s ++ w3 ++ lit "```" ++ w4) = py_strip s
  /\ strip_code_fences s = py_strip s
  /\ AnthropicClient_generate_json L1 cfg prompt sys temp max_tokens w = parsed
  /\ AnthropicClient_generate_json L2 cfg prompt sys temp max_tokens w = parsed.
Proof.
  intros Hj H1 H2 Hf Hs B1 B2 B3 B4 parsed.
  split; [by apply strip_code_fences_fenced|].
  split; [by apply strip_code_fences_bare|].
  rewrite (AnthropicClient_generate_json_text L1 _ _ _ _ _ _ _ _ H1).
  rewrite (AnthropicClient_generate_json_text L2 _ _ _ _ _ _ _ _ H2).
  rewrite strip_code_fences_fenced by done.
  rewrite strip_code_fences_bare by done.
  split; [|done]. unfold parsed, bind.
  destruct (get_model cfg w) as [[m|e] w0]; [|done]. by rewrite Hj.
Qed.

(** ** Examples *)

(** A reply fenced with the [json] tag and the bare reply both give the
    object that [json.loads] reads from the body, after one call. *)
Lemma fenced_reply_parses_like_bare_witness :
  let cfg := {| provider := lit "anthropic"; api_key := lit "sk"; model := None |} in
  let fenced := lit "```json
" ++ Sample.cv_text ++ lit "
```" in
  let L1 := Sample.make_libs [] [TextBlock fenced] PNone in
  let L2 := Sample.make_libs [] [TextBlock Sample.cv_text] PNone in
  fst (AnthropicClient_generate_json L1 cfg (lit "Hi") None float_0_3 8192
         Sample.empty_world)
    = Ok (PDict {[ lit "cv" := PDict ∅ ]})
  /\ AnthropicClient_generate_json L1 cfg (lit "Hi") None float_0_3 8192
       Sample.empty_world
     = AnthropicClient_generate_json L2 cfg (lit "Hi") None float_0_3 8192
         Sample.empty_world.
Proof.
  intros cfg fenced L1 L2.
  destruct (fenced_reply_parses_like_bare L1 L2
              cfg (lit "Hi") None float_0_3 8192 Sample.empty_world
              (lit "```json") Sample.cv_text [] [10] [10] [] [] [])
    as (_ & _ & E1 & E2).
  - intros t. reflexivity.
  - intros r. reflexivity.
  - intros r. reflexivity.
  - constructor.
  - vm_compute. reflexivity.
  - constructor.
  - repeat constructor.
  - repeat constructor.
  - constructor.
  - split; [rewrite E1; reflexivity|rewrite E1, E2; reflexivity].
Defined.

(** The factory on concrete environments. *)
Lemma credential_resolution_precedence_witness :
  let L := Sample.make_libs [] [] PNone in
  get_ai_client L (Some (lit "anthropic")) (Some (lit "sk-given")) None Sample.both_keys
    = (Ok (AnthropicClient {| provider := lit "anthropic"; api_key := lit "sk-given";
                              model := None |}), Sample.both_keys)
  /\ fst (get_ai_client L None (Some (lit "sk-given")) None Sample.both_keys)
     = Raise (Exn RenderCVUserError
         (lit "When providing an API key, you must also specify the provider (--provider openai or --provider anthropic)"))
  /\ get_ai_client L None None None Sample.both_keys
     = (Ok (OpenAIClient {| provider := lit "openai"; api_key := lit "sk-openai";
                            model := None |}), Sample.both_keys)
  /\ get_ai_client L None None None Sample.anthropic_key
     = (Ok (AnthropicClient {| provider := lit "anthropic"; api_key := lit "sk-anthropic";
                               model := None |}), Sample.anthropic_key)
  /\ fst (get_ai_client L None None None Sample.empty_world)
     = Raise (Exn RenderCVUserError
         (lit "No API key found. Please set OPENAI_API_KEY or ANTHROPIC_API_KEY environment variable, or use --api-key with --provider option.")).
Proof.
  intros L. split; [|split; [|split; [|split]]].
  - rewrite (proj1 (credential_resolution_precedence L (lit "anthropic") (lit "sk-given")
                      [] None None Sample.both_keys)).
    reflexivity.
  - rewrite (proj1 (proj2 (credential_resolution_precedence L [] (lit "sk-given")
                             [] None None Sample.both_keys)) eq_refl).
    reflexivity.
  - destruct (proj2 (proj2 (credential_resolution_precedence L [] []
                              (lit "sk-openai") None None Sample.both_keys)) eq_refl)
      as (H & _ & _).
    rewrite H; [reflexivity|vm_compute; reflexivity|reflexivity].
  - destruct (proj2 (proj2 (credential_resolution_precedence L [] []
                              (lit "sk-anthropic") None None Sample.anthropic_key)) eq_refl)
      as (_ & H & _).
    rewrite H; [reflexivity|vm_compute; reflexivity|vm_compute; reflexivity|reflexivity].
  - destruct (proj2 (proj2 (credential_resolution_precedence L [] []
                              [] None None Sample.empty_world)) eq_refl)
      as (_ & _ & H).
    rewrite H; [reflexivity|vm_compute; reflexivity|vm_compute; reflexivity].
Defined.

(** C1, as first stated, fails on an empty key: given without a
    provider it is not an error, the environment decides. *)
Lemma empty_key_without_provider_is_accepted :
  get_ai_client (Sample.make_libs [] [] PNone) None (Some []) None Sample.both_keys
    = (Ok (OpenAIClient {| provider := lit "openai"; api_key := lit "sk-openai";
                           model := None |}), Sample.both_keys).
Proof. vm_compute. reflexivity. Qed.

(** A text file that holds white space only, a blank job description
    and blank user information. *)
Lemma blank_input_raises_before_any_call_witness :
  let L := Sample.make_libs [Some Sample.cv_text] [] PNone in
  let self := {| client := OpenAIClient {| provider := lit "openai"; api_key := lit "sk";
                                           model := None |} |} in
  let w := Sample.world_of ∅ {[ lit "scan.txt" := FFile [32; 10] ]} ∅ in
  parse_resume L [] self (Sample.file (lit "scan.txt")) w
    = (Raise (Exn RenderCVUserError
         (lit "Could not extract any text from scan.txt. The file may be image-based or corrupted.")), w)
  /\ tailor_resume L [] self (PDict ∅) [32; 10] w
     = (Raise (Exn RenderCVUserError (lit "Job description cannot be empty.")), w)
  /\ generate_resume L [] self [32; 10] w
     = (Raise (Exn RenderCVUserError (lit "User information cannot be empty.")), w).
Proof.
  intros L self w.
  destruct (blank_input_raises_before_any_call L [] [] [] self
              (Sample.file (lit "scan.txt")) (PDict ∅) [32; 10] w) as (H1 & H2 & H3).
  - repeat constructor.
  - split; [|split; [exact H2|exact H3]].
    rewrite H1; [reflexivity|vm_compute; reflexivity].
Defined.

(** A chat-completion reply without content. *)
Lemma openai_no_content_is_empty_object_witness :
  let L := Sample.make_libs [None] [] PNone in
  let cfg := {| provider := lit "openai"; api_key := lit "sk"; model := None |} in
  let self := {| client := OpenAIClient cfg |} in
  fst (OpenAIClient_generate_json L cfg (lit "Hi") None float_0_3 8192 Sample.empty_world)
    = Ok (PDict ∅)
  /\ fst (generate_resume L [] self (lit "Engineer") Sample.empty_world)
     = Raise (Exn RenderCVUserError
         (lit "AI failed to generate valid resume. Please try again.")).
Proof.
  intros L cfg self.
  destruct (openai_no_content_is_empty_object L [] [] [] [] cfg self (lit "Hi") None
              float_0_3 8192 None [] (Sample.file (lit "cv.txt")) (PDict ∅) None
              (lit "Engineer") Sample.empty_world) as (H1 & _ & _ & _ & H5).
  - reflexivity.
  - reflexivity.
  - intros r. reflexivity.
  - reflexivity.
  - vm_compute. reflexivity.
  - intros B. inversion B as [|c s Hc Hs]. vm_compute in Hc. discriminate Hc.
  - split; [exact H1|exact H5].
Defined.

(** Saving a document that has neither [design] nor [locale]. *)
Lemma save_resume_yaml_mutates_caller_dict_witness :
  let L := Sample.make_libs [] [] PNone in
  let d : gmap pystr pyval := {[ lit "cv" := PDict ∅ ]} in
  let w := Sample.world_of ∅ ∅ {[ 1%positive := PDict d ]} in
  exists d',
    heap (snd (save_resume_yaml L 1 (Sample.file (lit "out.yaml")) (lit "classic")
                 (lit "english") w)) !! 1%positive = Some (PDict d')
    /\ d' !! lit "design" = Some (design_block (lit "classic"))
    /\ d' !! lit "locale" = Some (locale_block (lit "english"))
    /\ d' !! lit "cv" = Some (PDict ∅).
Proof.
  intros L d w.
  destruct (save_resume_yaml_mutates_caller_dict L 1 d (Sample.file (lit "out.yaml"))
              (lit "classic") (lit "english") w) as (d' & H & Hd & Hl & Hk & _).
  - vm_compute. reflexivity.
  - exists d'. split; [exact H|]. split; [|split].
    + apply Hd. vm_compute. reflexivity.
    + apply Hl. vm_compute. reflexivity.
    + apply Hk. vm_compute. reflexivity.
Defined.



(** An in-place polish and a tailor run without [--output], on an old
    document with the three metadata blocks and a reply that has a [cv]
    only: the first writes the input file again, the second the file
    named after the input. *)
Lemma carry_over_law_witness :
  let L := Sample.make_libs [Some Sample.cv_text] [] (PDict Sample.old_doc) in
  let w := Sample.world_of ∅ {[ lit "cv.yaml" := FFile (lit "cv: {}") ]} ∅ in
  let input := Sample.file (lit "cv.yaml") in
  (exists saved w',
     ai_polish L [] input None None true
       (Some (lit "openai")) (Some (lit "sk")) None w = (Ok tt, w')
     /\ fs w' !! lit "cv.yaml" = Some (FFile (yaml_dump L (PDict saved)))
     /\ saved !! lit "design" = Some (PDict {[ lit "theme" := PStr (lit "sb2nov") ]})
     /\ saved !! lit "locale" = Some (PDict {[ lit "language" := PStr (lit "french") ]})
     /\ saved !! lit "settings" = Some (PDict {[ lit "bold" := PBool true ]})
     /\ saved !! lit "cv" = Some (PDict ∅))
  /\ (exists saved w',
        ai_tailor L [] input (lit "Engineer") None
          (Some (lit "openai")) (Some (lit "sk")) None w = (Ok tt, w')
        /\ fs w' !! lit "cv_tailored.yaml" = Some (FFile (yaml_dump L (PDict saved)))
        /\ saved !! lit "design" = Some (PDict {[ lit "theme" := PStr (lit "sb2nov") ]})
        /\ saved !! lit "locale" = Some (PDict {[ lit "language" := PStr (lit "french") ]})
        /\ saved !! lit "settings" = Some (PDict {[ lit "bold" := PBool true ]})
        /\ saved !! lit "cv" = Some (PDict ∅)).
Proof.
  intros L w input.
  pose (svc := {| client := OpenAIClient {| provider := lit "openai"; api_key := lit "sk";
                                            model := None |} |}).
  pose (new := ({[ lit "cv" := PDict ∅ ]} : gmap pystr pyval)).
  split.
  - destruct (carry_over_law L [] [] input None true (lit "Engineer") None
                (Some (lit "openai")) (Some (lit "sk")) None svc Sample.old_doc new
                (lit "Engineer") w w w
                (snd (polish_resume L [] svc (PDict Sample.old_doc) None w)))
      as (saved & Hcopy & Hkeep & Hpolish & _).
    + vm_compute. reflexivity.
    + vm_compute. reflexivity.
    + destruct Hpolish as (w' & Hrun & Hfile);
        [vm_compute; reflexivity|vm_compute; discriminate|].
      exists saved, w'. split; [exact Hrun|]. split; [exact Hfile|].
      split; [|split; [|split]].
      * apply Hcopy; [repeat constructor|vm_compute; reflexivity|vm_compute; reflexivity].
      * apply Hcopy; [repeat constructor|vm_compute; reflexivity|vm_compute; reflexivity].
      * apply Hcopy; [repeat constructor|vm_compute; reflexivity|vm_compute; reflexivity].
      * apply Hkeep. vm_compute. reflexivity.
  - destruct (carry_over_law L [] [] input None false (lit "Engineer") None
                (Some (lit "openai")) (Some (lit "sk")) None svc Sample.old_doc new
                (lit "Engineer") w w w
                (snd (tailor_resume L [] svc (PDict Sample.old_doc) (lit "Engineer") w)))
      as (saved & Hcopy & Hkeep & _ & Htailor).
    + vm_compute. reflexivity.
    + vm_compute. reflexivity.
    + destruct Htailor as (w' & Hrun & Hfile);
        [vm_compute; reflexivity|vm_compute; reflexivity|vm_compute; discriminate|].
      exists saved, w'. split; [exact Hrun|]. split; [exact Hfile|].
      split; [|split; [|split]].
      * apply Hcopy; [repeat constructor|vm_compute; reflexivity|vm_compute; reflexivity].
      * apply Hcopy; [repeat constructor|vm_compute; reflexivity|vm_compute; reflexivity].
      * apply Hcopy; [repeat constructor|vm_compute; reflexivity|vm_compute; reflexivity].
      * apply Hkeep. vm_compute. reflexivity.
Defined.

(** ** Where the code departs from the specification *)

(** C2. A reply without [cv] whose [resume] is [null]: the membership
    test on the nested value fails with a [TypeError], which is not the
    user error of a reply of the wrong shape. *)
Theorem tailor_resume_null_resume_is_type_error :
  let L := Sample.make_libs [Some Sample.resume_null_text] [] PNone in
  let self := {| client := OpenAIClient {| provider := lit "openai"; api_key := lit "sk";
                                           model := None |} |} in
  fst (tailor_resume L [] self (PDict ∅) (lit "Engineer") Sample.empty_world)
    = Raise (Exn TypeError (lit "argument of type 'NoneType' is not iterable")).
Proof. vm_compute. reflexivity. Qed.

(** A reply without [cv] whose [resume] is a string that happens to
    contain the letters [cv]: the string is returned as the document. *)
Lemma tailor_resume_string_resume_is_returned :
  let L := Sample.make_libs [Some Sample.resume_string_text] [] PNone in
  let self := {| client := OpenAIClient {| provider := lit "openai"; api_key := lit "sk";
                                           model := None |} |} in
  fst (tailor_resume L [] self (PDict ∅) (lit "Engineer") Sample.empty_world)
    = Ok (PStr (lit "see my cv")).
Proof. vm_compute. reflexivity. Qed.

(** C7. An existing file with the suffix [.xyz] is refused with a
    message that lists PDF, DOCX, TXT and MD; it does not name RST,
    although a file with the suffix [.rst] is read as text. *)
Theorem unsupported_format_message_omits_rst :
  let L := Sample.make_libs [] [] PNone in
  let w := Sample.world_of ∅
             (<[lit "resume.xyz" := FFile (lit "content")]>
                (<[lit "notes.rst" := FFile (lit "Resume content")]> ∅)) ∅ in
  let msg := lit "Unsupported file format: .xyz. Supported formats: PDF, DOCX, TXT, MD" in
  extract_resume_text L (Sample.file (lit "resume.xyz")) w
    = (Raise (Exn RenderCVUserError msg), w)
  /\ py_substring (lit "rst") (py_lower L msg) = false
  /\ extract_resume_text L (Sample.file (lit "notes.rst")) w
     = (Ok (lit "Resume content"), w).
Proof. vm_compute. repeat split. Qed.

(** C8. A messages-style reply with no content block makes [generate]
    of the Anthropic client fail with an [IndexError], where the OpenAI
    client returns the empty string for a reply without content. *)
Theorem anthropic_generate_empty_reply_raises :
  fst (AnthropicClient_generate (Sample.make_libs [] [] PNone)
         {| provider := lit "anthropic"; api_key := lit "sk"; model := None |}
         (lit "Hi") None float_0_7 4096 Sample.empty_world)
    = Raise (Exn IndexError (lit "list index out of range"))
  /\ fst (OpenAIClient_generate (Sample.make_libs [None] [] PNone)
            {| provider := lit "openai"; api_key := lit "sk"; model := None |}
            (lit "Hi") None float_0_7 4096 Sample.empty_world)
     = Ok [].
Proof. vm_compute. split; reflexivity. Qed.

(** The suffix is compared in lower case: [CV.PDF] goes to the PDF reader
    (which is not installed in the sample), [NOTES.Md] is read as text,
    and a missing file is reported before its suffix is looked at. *)
Example suffix_dispatch_examples :
  let L := Sample.make_libs [] [] PNone in
  let w := Sample.world_of ∅
             (<[lit "CV.PDF" := FFile (lit "%PDF-1.4")]>
                (<[lit "NOTES.Md" := FFile (lit "# Resume")]> ∅)) ∅ in
  fst (extract_resume_text L (Sample.file (lit "CV.PDF")) w)
    = Raise (Exn RenderCVUserError
        (lit "pypdf package is not installed. Install it with: pip install pypdf"))
  /\ fst (extract_resume_text L (Sample.file (lit "NOTES.Md")) w) = Ok (lit "# Resume")
  /\ fst (extract_resume_text L (Sample.file (lit "missing.xyz")) w)
     = Raise (Exn RenderCVUserError (lit "File not found: missing.xyz")).
Proof. vm_compute. repeat split. Qed.

(** ** Further examples *)

Lemma get_ai_client_returns_known_provider_witness :
  exists name,
    get_model {| provider := lit "openai"; api_key := lit "sk-openai"; model := None |}
      Sample.both_keys = (Ok name, Sample.both_keys).
Proof.
  destruct (get_ai_client_returns_known_provider (Sample.make_libs [] [] PNone)
              None None None Sample.both_keys Sample.both_keys
              (OpenAIClient {| provider := lit "openai"; api_key := lit "sk-openai";
                               model := None |}))
    as (_ & _ & _ & _ & H).
  - vm_compute. reflexivity.
  - exact H.
Defined.

Lemma provider_key_comes_from_its_variable_witness :
  let L := Sample.make_libs [] [] PNone in
  get_ai_client L (Some (lit "anthropic")) None None Sample.both_keys
    = make_client L {| provider := lit "anthropic"; api_key := lit "sk-anthropic";
                       model := None |} Sample.both_keys
  /\ get_ai_client L (Some (lit "mistral")) None None Sample.both_keys
     = (Raise (Exn RenderCVUserError
          (lit "API key not found. Please set MISTRAL_API_KEY environment variable or use --api-key option.")),
        Sample.both_keys).
Proof.
  intros L. split.
  - apply (proj1 (provider_key_comes_from_its_variable L (lit "anthropic") None
                    Sample.both_keys eq_refl)).
    + vm_compute. reflexivity.
    + reflexivity.
  - rewrite (proj2 (provider_key_comes_from_its_variable L (lit "mistral") None
                      Sample.both_keys eq_refl)).
    + reflexivity.
    + vm_compute. reflexivity.
Defined.

Lemma not_blank_Engineer : ~ blank (lit "Engineer").
Proof. intros B. inversion B as [|c s Hc Hs]. vm_compute in Hc. discriminate Hc. Defined.

Lemma client_failure_propagates_unchanged_witness :
  let L := Sample.make_libs [Some (lit "oops")] [] PNone in
  let self := {| client := OpenAIClient {| provider := lit "openai"; api_key := lit "sk";
                                           model := None |} |} in
  fst (polish_resume L [] self (PDict ∅) None Sample.empty_world)
    = Raise (Exn JSONDecodeError (lit "Expecting value")).
Proof.
  intros L self.
  apply (client_failure_propagates_unchanged L [] [] [] [] self
           (Sample.file (lit "cv.txt")) (PDict ∅) None (lit "Engineer")
           (Exn JSONDecodeError (lit "Expecting value")) Sample.empty_world).
  - intros prompt sys temp. reflexivity.
  - exact not_blank_Engineer.
Defined.

Lemma generate_json_failures_witness :
  let L := Sample.make_libs [] [] PNone in
  let cfg := {| provider := lit "anthropic"; api_key := lit "sk"; model := None |} in
  exists c,
    AnthropicClient_generate_json L cfg (lit "Hi") None float_0_3 8192 Sample.empty_world
      = (Raise (Exn IndexError (lit "list index out of range")),
         log_call c Sample.empty_world).
Proof.
  intros L cfg.
  apply (generate_json_failures L cfg (lit "Hi") None float_0_3 8192
           (lit "claude-sonnet-4-20250514") Sample.empty_world
           (Exn IndexError [])).
  - reflexivity.
  - intros r. reflexivity.
Defined.

Lemma object_reply_needs_top_level_cv_witness :
  let L := Sample.make_libs [Some Sample.cv_text] [] PNone in
  let self := {| client := OpenAIClient {| provider := lit "openai"; api_key := lit "sk";
                                           model := None |} |} in
  fst (generate_resume L [] self (lit "Engineer") Sample.empty_world)
    = Ok (PDict {[ lit "cv" := PDict ∅ ]}).
Proof.
  intros L self.
  destruct (object_reply_needs_top_level_cv L [] [] [] self
              (Sample.file (lit "cv.txt")) (PDict ∅) None (lit "Engineer")
              {[ lit "cv" := PDict ∅ ]} Sample.empty_world) as (_ & _ & H).
  - intros prompt sys temp. reflexivity.
  - exact not_blank_Engineer.
  - rewrite H. vm_compute. reflexivity.
Defined.

Lemma tailor_resume_accepts_two_shapes_witness :
  let L := Sample.make_libs [Some Sample.cv_text] [] PNone in
  let self := {| client := OpenAIClient {| provider := lit "openai"; api_key := lit "sk";
                                           model := None |} |} in
  fst (tailor_resume L [] self (PDict ∅) (lit "Engineer") Sample.empty_world)
    = Ok (PDict {[ lit "cv" := PDict ∅ ]}).
Proof.
  intros L self.
  apply (tailor_resume_accepts_two_shapes L [] self (PDict ∅) (lit "Engineer")
           {[ lit "cv" := PDict ∅ ]} Sample.empty_world).
  - intros prompt sys temp. reflexivity.
  - exact not_blank_Engineer.
  - vm_compute. by eexists.
Defined.

(** A file whose root is a sequence, and a name of 256 characters on an
    operating system that allows 255. *)
Lemma load_resume_yaml_failures_witness :
  let L := Cases.with_stat_error Cases.name_too_long
             (Sample.make_libs [] [] (PList [])) in
  let w := Sample.world_of ∅ {[ lit "cv.yaml" := FFile (lit "- a") ]} ∅ in
  fst (load_resume_yaml L (Sample.file (lit "cv.yaml")) w)
    = Raise (Exn RenderCVUserError (lit "Invalid YAML structure in cv.yaml"))
  /\ fst (load_resume_yaml L (Sample.file (replicate 256 97)) w)
     = Raise (Exn OSError (lit "[Errno 36] File name too long")).
Proof.
  intros L w. split.
  - destruct (load_resume_yaml_failures L (Sample.file (lit "cv.yaml")) w)
      as (_ & _ & _ & _ & H & _).
    rewrite (H (lit "- a") (PList [])).
    + reflexivity.
    + vm_compute. reflexivity.
    + reflexivity.
    + intros d. discriminate.
  - destruct (load_resume_yaml_failures L (Sample.file (replicate 256 97)) w)
      as (_ & H & _).
    apply H; vm_compute; reflexivity.
Defined.

(** The same name given to the text extraction. *)
Lemma extract_resume_text_failures_witness :
  let L := Cases.with_stat_error Cases.name_too_long
             (Sample.make_libs [] [] PNone) in
  fst (extract_resume_text L (Sample.file (replicate 256 97)) Sample.empty_world)
    = Raise (Exn OSError (lit "[Errno 36] File name too long")).
Proof.
  intros L.
  destruct (extract_resume_text_failures L (Sample.file (replicate 256 97)))
    as (_ & H & _).
  apply H; vm_compute; reflexivity.
Defined.

Lemma text_file_falls_back_to_latin1_witness :
  let L := Cases.make_libs [] Cases.undecodable (fun b => Ok b) None PNone in
  let w := Sample.world_of ∅ {[ lit "resume.txt" := FFile [233] ]} ∅ in
  extract_text_from_txt L (Sample.file (lit "resume.txt")) w = (Ok [233], w).
Proof.
  intros L w.
  rewrite (text_file_falls_back_to_latin1 L (Sample.file (lit "resume.txt")) [233]
             (Exn UnicodeDecodeError (lit "invalid start byte")) w).
  - reflexivity.
  - vm_compute. reflexivity.
  - reflexivity.
Defined.

Lemma document_without_text_is_rejected_witness :
  let L := Cases.make_libs [Some Sample.cv_text] (fun b => Ok b) (fun b => Ok b)
             (Some Cases.scanned) PNone in
  let self := {| client := OpenAIClient {| provider := lit "openai"; api_key := lit "sk";
                                           model := None |} |} in
  let w := Sample.world_of ∅ {[ lit "scan.PDF" := FFile (lit "%PDF-1.4") ]} ∅ in
  parse_resume L [] self (Sample.file (lit "scan.PDF")) w
    = (Raise (Exn RenderCVUserError
         (lit "Could not extract any text from scan.PDF. The file may be image-based or corrupted.")), w).
Proof.
  intros L self w.
  rewrite (document_without_text_is_rejected L [] self (Sample.file (lit "scan.PDF"))
             (lit "%PDF-1.4") w).
  - reflexivity.
  - vm_compute. reflexivity.
  - left. split; [vm_compute; reflexivity|].
    exists Cases.scanned, [[]; [32]].
    split; [reflexivity|]. split; [reflexivity|]. repeat constructor.
Defined.

Lemma second_save_keeps_first_defaults_witness :
  let L := Sample.make_libs [] [] PNone in
  let d : gmap pystr pyval := {[ lit "cv" := PDict ∅ ]} in
  let w := Sample.world_of ∅ ∅ {[ 1%positive := PDict d ]} in
  exists w',
    (save_resume_yaml L 1 (Sample.file (lit "a.yaml")) (lit "classic") (lit "english")
     >> save_resume_yaml L 1 (Sample.file (lit "b.yaml")) (lit "sb2nov") (lit "french")) w
      = (Ok tt, w')
    /\ heap w' !! 1%positive
       = Some (PDict (with_defaults (lit "classic") (lit "english") d)).
Proof.
  intros L d w.
  destruct (second_save_keeps_first_defaults L 1 d (Sample.file (lit "a.yaml"))
              (Sample.file (lit "b.yaml")) (lit "classic") (lit "english")
              (lit "sb2nov") (lit "french") w) as (w' & H1 & _ & H3).
  - vm_compute. reflexivity.
  - vm_compute. discriminate.
  - vm_compute. discriminate.
  - exists w'. split; [exact H1|exact H3].
Defined.

(** A polish run without [--output] and without [--in-place]: the file
    written is named after the input. *)
Lemma flows_save_new_then_old_then_default_witness :
  let L := Sample.make_libs [Some Sample.cv_text] [] (PDict Sample.old_doc) in
  let w := Sample.world_of ∅ {[ lit "cv.yaml" := FFile (lit "cv: {}") ]} ∅ in
  exists saved w',
    ai_polish L [] (Sample.file (lit "cv.yaml")) None None false
      (Some (lit "openai")) (Some (lit "sk")) None w = (Ok tt, w')
    /\ fs w' !! lit "cv_polished.yaml" = Some (FFile (yaml_dump L (PDict saved)))
    /\ saved !! lit "cv" = Some (PDict ∅)
    /\ saved !! lit "settings" = Some (PDict {[ lit "bold" := PBool true ]})
    /\ saved !! lit "extra" = None.
Proof.
  intros L w.
  pose (svc := {| client := OpenAIClient {| provider := lit "openai"; api_key := lit "sk";
                                            model := None |} |}).
  pose (new := ({[ lit "cv" := PDict ∅ ]} : gmap pystr pyval)).
  destruct (flows_save_new_then_old_then_default L [] [] (Sample.file (lit "cv.yaml")) None
              false (lit "Engineer") None (Some (lit "openai")) (Some (lit "sk")) None svc
              Sample.old_doc new (lit "Engineer") w w w
              (snd (polish_resume L [] svc (PDict Sample.old_doc) None w)))
    as (Hpolish & _).
  - vm_compute. reflexivity.
  - vm_compute. reflexivity.
  - destruct Hpolish as (saved & w' & Hrun & Hfile & Hk);
      [vm_compute; reflexivity|vm_compute; discriminate|].
    exists saved, w'. split; [exact Hrun|]. split; [exact Hfile|].
    rewrite !Hk. vm_compute. repeat split.
Defined.

(** A generate run without [--output] for the name [Ada Lovelace]. *)
Lemma parse_and_generate_save_reply_with_defaults_witness :
  let L := Sample.make_libs [Some Sample.cv_text] [] PNone in
  exists saved w',
    ai_generate L [] (lit "Ada Lovelace") None false None (lit "sb2nov") (lit "french")
      (Some (lit "openai")) (Some (lit "sk")) None [] Sample.empty_world = (Ok tt, w')
    /\ fs w' !! lit "Ada_Lovelace_CV.yaml" = Some (FFile (yaml_dump L (PDict saved)))
    /\ saved !! lit "design" = Some (design_block (lit "sb2nov"))
    /\ saved !! lit "cv" = Some (PDict ∅).
Proof.
  intros L.
  pose (svc := {| client := OpenAIClient {| provider := lit "openai"; api_key := lit "sk";
                                            model := None |} |}).
  pose (doc := ({[ lit "cv" := PDict ∅ ]} : gmap pystr pyval)).
  pose (text := lit "Name: " ++ lit "Ada Lovelace" ++ blank_line
                ++ lit "Please generate a sample professional resume for a software engineer with 5 years of experience.").
  destruct (parse_and_generate_save_reply_with_defaults L [] []
              (Sample.file (lit "cv.txt")) None (lit "Ada Lovelace") (lit "sb2nov")
              (lit "french")
              None false [] (Some (lit "openai")) (Some (lit "sk")) None svc doc text
              Sample.empty_world Sample.empty_world
              (snd (generate_resume L [] svc text Sample.empty_world)))
    as (saved & Hd & _ & Hk & _ & Hgen).
  - vm_compute. reflexivity.
  - destruct Hgen as (w' & Hrun & Hfile);
      [vm_compute; reflexivity|vm_compute; reflexivity|vm_compute; discriminate|].
    exists saved, w'. split; [exact Hrun|]. split; [exact Hfile|]. split.
    + rewrite Hd. vm_compute. reflexivity.
    + rewrite Hk by done. vm_compute. reflexivity.
Defined.

Lemma gathered_user_info_is_never_blank_witness :
  ~ blank (lit "Name: " ++ [] ++ blank_line ++ lit "x").
Proof.
  destruct (gathered_user_info_is_never_blank (Sample.make_libs [] [] PNone)
              [] (Some (lit "x")) false []
              (lit "Name: " ++ [] ++ blank_line ++ lit "x")
              Sample.empty_world Sample.empty_world) as (_ & _ & H).
  - vm_compute. reflexivity.
  - exact H.
Defined.

Lemma read_block_ends_at_double_blank_witness :
  read_block [] [lit "BSc"; []; lit "MSc"; []; []; lit "next"]
    = Some ([lit "BSc"; []; lit "MSc"; []], [lit "next"]).
Proof.
  apply (read_block_ends_at_double_blank [lit "BSc"; []; lit "MSc"] [lit "next"]).
  reflexivity.
Defined.

Lemma one_sided_fences_are_removed_witness :
  strip_code_fences ([] ++ lit "```json" ++ [10] ++ Sample.cv_text ++ [])
    = py_strip Sample.cv_text
  /\ strip_code_fences ([] ++ Sample.cv_text ++ [10] ++ lit "```" ++ [])
     = py_strip Sample.cv_text.
Proof.
  apply (one_sided_fences_are_removed (lit "```json") Sample.cv_text [] [10] []).
  - constructor.
  - vm_compute. reflexivity.
  - constructor.
  - repeat constructor.
  - constructor.
Defined.

Lemma read_job_description_on_a_path_witness :
  let L := Cases.make_libs [] Cases.undecodable (fun b => Ok b) None PNone in
  let w := Sample.world_of ∅ {[ lit "job.txt" := FFile [233] ]} ∅ in
  read_job_description L (lit "job.txt") w = (Ok (lit "job.txt"), w).
Proof.
  intros L w.
  rewrite (read_job_description_on_a_path L (lit "job.txt") w (FFile [233])).
  - reflexivity.
  - vm_compute. reflexivity.
Defined.
